(** * Test-support utilities: response checker, user factories, shared data

    A shallow embedding of the Python sources

      - [your_app_utils/api_exception.py]  (class [ApiException])
      - [your_app_utils/pagination.py]     (class [PaginationDTO])
      - [testing_tools/response_checker.py] (class [ResponseChecker])
      - [testing_tools/async_client.py]    (class [AsyncClientBoB])
      - [testing_tools/fixtures.py]        ([SharedData], the user factories)

    Python values that travel through a decoded JSON body are values of
    [pyval]; a Python [dict] with string keys is a [gmap string _]; a raised
    exception is the [Raise] branch of [result]; objects that are shared and
    mutated (the wrappers cached by a factory) live in an explicit heap and
    are named by their address.  What belongs to other libraries or to the
    application under test is taken as given: the outcome of a response's
    [json()] is a field of the response, the constructor of the pagination
    schema and the ORM calls are parameters. *)

From Stdlib Require Import ZArith Floats.SpecFloat.
From stdpp Require Import gmap strings list fin_maps pretty.

Set Warnings "-register-all".

(** ** Python values *)

(** The Python objects a decoded JSON body is made of: [None], [bool],
    [int], [float], [str], [list] and [dict] with string keys. *)
Inductive pyval : Type :=
  | JNull
  | JBool (b : bool)
  | JInt (n : Z)
  | JFloat (f : spec_float)
  | JStr (s : string)
  | JList (l : list pyval)
  | JObj (m : gmap string pyval).

(** Python's truth-value protocol ([bool(x)], used by [if x], [x if c else y]
    and [assert x]). *)
Class Truthy (A : Type) := truthy : A → bool.

#[global] Instance string_truthy : Truthy string :=
  λ s, match s with EmptyString => false | String _ _ => true end.

#[global] Instance Z_truthy : Truthy Z := λ n, negb (n =? 0)%Z.

(** An argument whose default is [None]: [None] is falsy, a supplied value
    has the truth value of its type. *)
#[global] Instance option_truthy {A} `{Truthy A} : Truthy (option A) :=
  λ o, match o with None => false | Some a => truthy a end.

#[global] Instance float_truthy : Truthy spec_float :=
  λ f, match f with S754_zero _ => false | _ => true end.

#[global] Instance pyval_truthy : Truthy pyval :=
  λ v, match v with
       | JNull => false
       | JBool b => b
       | JInt n => truthy n
       | JFloat f => truthy f
       | JStr s => truthy s
       | JList l => match l with [] => false | _ :: _ => true end
       | JObj m => match map_to_list m with [] => false | _ :: _ => true end
       end.

(** ** Formatted messages and exceptions *)

(** An f-string is kept as written: literal text and interpolated values. *)
Inductive piece : Type :=
  | Text (s : string)
  | Interp (v : pyval).

Definition fstring := list piece.

(** [str(v)] for the scalar values; the [repr] of floats and of containers
    is not modelled. *)
Definition py_str (v : pyval) : option string :=
  match v with
  | JNull => Some "None"
  | JBool true => Some "True"
  | JBool false => Some "False"
  | JInt n => Some (pretty n)
  | JStr s => Some s
  | JFloat _ | JList _ | JObj _ => None
  end.

Fixpoint render (f : fstring) : option string :=
  match f with
  | [] => Some ""
  | Text s :: f' => (λ r, s +:+ r) <$> render f'
  | Interp v :: f' =>
      match py_str v, render f' with
      | Some s, Some r => Some (s +:+ r)
      | _, _ => None
      end
  end.

(** [s] occurs in [t]. *)
Definition occurs_in (s t : string) : Prop :=
  ∃ pre post : string, t = pre +:+ s +:+ post.

(** Why [http.cookies] refuses a cookie: the name is a reserved attribute
    name, the name has a character outside the legal ones (or is empty), or
    there is a control character in it. *)
Inductive cookie_error : Type :=
  | ReservedKey (key : string)
  | IllegalKey (key : string)
  | ControlCharacters (key val coded_val : string).

Inductive exn : Type :=
  | AssertionError (msg : fstring)
  | CookieError (why : cookie_error)
  | TypeError (msg : string)
  | AttributeError (msg : string)
  | KeyError (key : string)
  | ValidationError (field : string)
  | JSONDecodeError (msg : string).

Inductive result (A : Type) : Type :=
  | Ok (a : A)
  | Raise (e : exn).
Arguments Ok {A} a.
Arguments Raise {A} e.

Definition rbind {A B} (r : result A) (k : A → result B) : result B :=
  match r with
  | Ok a => k a
  | Raise e => Raise e
  end.

#[global] Instance result_ret : MRet result := @Ok.
#[global] Instance result_bind : MBind result := λ A B k r, rbind r k.

(** [assert cond, msg] *)
Definition assert_ (cond : bool) (msg : fstring) : result unit :=
  if cond then Ok tt else Raise (AssertionError msg).

Definition is_assertion (e : exn) : Prop :=
  match e with AssertionError _ => True | _ => False end.

(** ** ninja_extra.status *)

(** Modelled from the spec: the status helpers of [ninja_extra] are imported,
    not defined under src/; each named class is the HTTP range of that
    hundred (1xx informational, 2xx success, 3xx redirect, 4xx client error,
    5xx server error). *)
Module status.
Definition in_range (lo hi code : Z) : bool :=
  ((lo <=? code) && (code <=? hi))%Z.
Definition is_informational : Z → bool := in_range 100 199.
Definition is_success : Z → bool := in_range 200 299.
Definition is_redirect : Z → bool := in_range 300 399.
Definition is_client_error : Z → bool := in_range 400 499.
Definition is_server_error : Z → bool := in_range 500 599.
End status.

(** ** http.cookies *)

(** The part of the standard library's [http.cookies] that
    [SimpleCookie(mapping)] runs (CPython 3.11, with the check against
    control characters).  A character of a string stands for the code
    point of the same number. *)
Module http_cookies.

Fixpoint char_in (c : Ascii.ascii) (s : string) : bool :=
  match s with
  | EmptyString => false
  | String a s' => if Ascii.eqb c a then true else char_in c s'
  end.

Fixpoint all_chars (p : Ascii.ascii → bool) (s : string) : bool :=
  match s with
  | EmptyString => true
  | String a s' => p a && all_chars p s'
  end.

Fixpoint any_char (p : Ascii.ascii → bool) (s : string) : bool :=
  match s with
  | EmptyString => false
  | String a s' => p a || any_char p s'
  end.

Definition _LegalChars : string :=
  "abcdefghijklmnopqrstuvwxyzABCDEFGHIJKLMNOPQRSTUVWXYZ" +:+ "0123456789"
  +:+ "!#$%&'*+-.^_`|~:".

Definition _UnescapedChars : string := _LegalChars +:+ " ()/<=>?@[]{}".

(** [_is_legal_key]: a full match of one or more legal characters. *)
Definition _is_legal_key (key : string) : bool :=
  match key with
  | EmptyString => false
  | String _ _ => all_chars (λ c, char_in c _LegalChars) key
  end.

(** [_control_character_re]: the code points [0x00] to [0x1F] and [0x7F]. *)
Definition is_control (c : Ascii.ascii) : bool :=
  let n := Ascii.nat_of_ascii c in (n <=? 31)%nat || (n =? 127)%nat.

Definition _has_control_character (vals : list string) : bool :=
  existsb (any_char is_control) vals.

(** [_Translator]: a backslash before a double quote or a backslash, a
    backslash and three octal digits for every other character that is not
    among the unescaped ones. *)
Definition octal_digit (d : nat) : Ascii.ascii := Ascii.ascii_of_nat (48 + d).

Definition backslash : Ascii.ascii := Ascii.ascii_of_nat 92.

Definition translate_char (c : Ascii.ascii) : string :=
  let n := Ascii.nat_of_ascii c in
  if (n =? 34)%nat || (n =? 92)%nat then String backslash (String c EmptyString)
  else if char_in c _UnescapedChars then String c EmptyString
  else String backslash (String (octal_digit (n / 64))
         (String (octal_digit ((n / 8) mod 8))
            (String (octal_digit (n mod 8)) EmptyString))).

Fixpoint translate (s : string) : string :=
  match s with
  | EmptyString => EmptyString
  | String c s' => translate_char c +:+ translate s'
  end.

Definition _quote (s : string) : string :=
  if _is_legal_key s then s
  else
    let q := String (Ascii.ascii_of_nat 34) EmptyString in
    q +:+ translate s +:+ q.

(** ASCII lower case; the reserved names are ASCII words, and no other
    character has a letter of theirs as its lower case. *)
Definition lower_char (c : Ascii.ascii) : Ascii.ascii :=
  let n := Ascii.nat_of_ascii c in
  if (65 <=? n)%nat && (n <=? 90)%nat then Ascii.ascii_of_nat (n + 32) else c.

Fixpoint lower (s : string) : string :=
  match s with
  | EmptyString => EmptyString
  | String c s' => String (lower_char c) (lower s')
  end.

Definition _reserved : list string :=
  ["expires"; "path"; "comment"; "domain"; "max-age"; "secure"; "httponly";
   "version"; "samesite"].

(** [Morsel.set(key, val, coded_val)]: the value the morsel holds. *)
Definition Morsel_set (key val coded_val : string) : result string :=
  if bool_decide (lower key ∈ _reserved)
  then Raise (CookieError (ReservedKey key))
  else if negb (_is_legal_key key)
  then Raise (CookieError (IllegalKey key))
  else if _has_control_character [key; val; coded_val]
  then Raise (CookieError (ControlCharacters key val coded_val))
  else Ok val.

(** [SimpleCookie.value_encode]: the value and its quoted form. *)
Definition value_encode (val : string) : string * string :=
  (val, _quote val).

(** [cookie[key] = value] on a jar of morsels, kept as name to value. *)
Definition setitem (jar : gmap string string) (key value : string)
    : result (gmap string string) :=
  let '(rval, cval) := value_encode value in
  v ← Morsel_set key rval cval;
  Ok (<[key := v]> jar).

(** [SimpleCookie(input)]: a new jar, loaded with one assignment per entry
    of the mapping; the first refused entry raises.  With several refused
    entries the one reported is the first in the mapping's own order, which
    a [gmap] does not keep; the entries are taken in the order of
    [map_to_list]. *)
Definition SimpleCookie (input : gmap string string)
    : result (gmap string string) :=
  foldr (λ kv acc, jar ← acc; setitem jar kv.1 kv.2) (Ok ∅)
    (map_to_list input).

End http_cookies.

(** What subscripting the cookies of a response gives: a morsel, whose
    [value] attribute is the cookie's value (the [SimpleCookie] of the web
    framework's responses), or a plain string, which has no such attribute
    (the [Cookies] of an [httpx] response). *)
Inductive cookie : Type :=
  | Morsel (value : string)
  | PlainString (s : string).

(** ** your_app_utils/api_exception.py *)

Inductive log_level : Type := WARNING | ERROR.

Module ApiException.

(** Class attributes. *)
Definition cls_name : string := "ApiException".
Definition cls_status_code : Z := 400.
Definition cls_api_client_message : string := "Error occurred. Try again.".

(** An instance: the argument given to [Exception.__init__] and the two
    instance attributes. *)
Record t : Type := mk {
  args : string;
  _status_code : Z;
  _api_client_message : string;
}.

(** [x if x else d] *)
Definition or_default {A} `{Truthy A} (x : option A) (d : A) : A :=
  match x with
  | Some a => if truthy a then a else d
  | None => d
  end.

(** [f"{self.__class__.__name__} raised: {message}"] *)
Definition message_format (message : option string) : string :=
  cls_name +:+ " raised: " +:+ default "None" message.

(** [__init__]: the instance, and the records handed to the logger. *)
Definition __init__ (message api_client_message : option string)
    (status_code : option Z) : t * list (log_level * string) :=
  let exception_message := or_default message cls_api_client_message in
  let sc := or_default status_code cls_status_code in
  let acm := or_default api_client_message cls_api_client_message in
  let logs :=
    (if status.is_client_error sc
     then [(WARNING, "Warning" +:+ message_format message)] else [])
    ++ (if status.is_server_error sc
        then [(ERROR, "Error" +:+ message_format message)] else []) in
  ({| args := exception_message; _status_code := sc;
      _api_client_message := acm |}, logs).

(** The two read-only properties. *)
Definition api_client_message (e : t) : string := _api_client_message e.
Definition status_code (e : t) : Z := _status_code e.

End ApiException.

(** ** your_app_utils/pagination.py *)

Module PaginationDTO.

(** [total_items] is declared [int] with default [None], so it too can
    hold [None]. *)
Record t : Type := mk {
  current_page : option Z;
  total_pages : option Z;
  total_items : option Z;
  has_next : bool;
  has_previous : bool;
}.

(** A field of type [Optional[int]] with default [None]. *)
Definition optional_int (field : string) (kw : gmap string pyval)
    : result (option Z) :=
  match kw !! field with
  | None => Ok None
  | Some JNull => Ok None
  | Some (JInt n) => Ok (Some n)
  | Some _ => Raise (ValidationError field)
  end.

(** A field of type [int] with default [None]: the default is not
    validated, a supplied value must be an [int]. *)
Definition int_default_none (field : string) (kw : gmap string pyval)
    : result (option Z) :=
  match kw !! field with
  | None => Ok None
  | Some (JInt n) => Ok (Some n)
  | Some _ => Raise (ValidationError field)
  end.

(** A field of type [bool] with default [False]. *)
Definition bool_default_false (field : string) (kw : gmap string pyval)
    : result bool :=
  match kw !! field with
  | None => Ok false
  | Some (JBool b) => Ok b
  | Some _ => Raise (ValidationError field)
  end.

(** The constructor called with the keywords [kw], validating each
    declared field against its annotated type and ignoring other keywords.
    The schema machinery
    (pydantic) is a library outside the repository; this instance accepts
    a value exactly when it already has the JSON type of the annotation
    and leaves out the library's coercions (numeric strings, integral
    floats, booleans read as integers).  The properties of [paginated]
    below are proved for an arbitrary validator; this one is the
    instance used on concrete bodies. *)
Definition validate (kw : gmap string pyval) : result t :=
  cp ← optional_int "current_page" kw;
  tp ← optional_int "total_pages" kw;
  ti ← int_default_none "total_items" kw;
  hn ← bool_default_false "has_next" kw;
  hp ← bool_default_false "has_previous" kw;
  Ok {| current_page := cp; total_pages := tp; total_items := ti;
        has_next := hn; has_previous := hp |}.

End PaginationDTO.

(** ** testing_tools/response_checker.py *)

(** The name of a value's class, as error messages print it. *)
Definition type_name (v : pyval) : string :=
  match v with
  | JNull => "NoneType"
  | JBool _ => "bool"
  | JInt _ => "int"
  | JFloat _ => "float"
  | JStr _ => "str"
  | JList _ => "list"
  | JObj _ => "dict"
  end.

(** [d.get(key, None)]: only a [dict] has the method. *)
Definition dict_get (d : pyval) (key : string) : result pyval :=
  match d with
  | JObj m => Ok (default JNull (m !! key))
  | _ => Raise (AttributeError
                  ("'" +:+ type_name d +:+ "' object has no attribute 'get'"))
  end.

(** [len(v)] *)
Definition len (v : pyval) : result Z :=
  match v with
  | JList l => Ok (Z.of_nat (length l))
  | JStr s => Ok (Z.of_nat (String.length s))
  | JObj m => Ok (Z.of_nat (size m))
  | _ => Raise (TypeError
                  ("object of type '" +:+ type_name v +:+ "' has no len()"))
  end.

(** Unpacking a value as keyword arguments: only a mapping can be. *)
Definition kwargs (v : pyval) : result (gmap string pyval) :=
  match v with
  | JObj m => Ok m
  | _ => Raise (TypeError
                  ("argument after ** must be a mapping, not " +:+ type_name v))
  end.

Definition is_not_none (v : pyval) : bool :=
  match v with JNull => false | _ => true end.

(** [s == v] for a [str] [s]: a string equals only an equal string. *)
Definition str_eq (s : string) (v : pyval) : bool :=
  match v with
  | JStr t => bool_decide (s = t)
  | _ => false
  end.

(** The response object handed to the checker (annotated [httpx.Response];
    the client wrapper hands over the web framework's test response): what
    the checker reads of it.  [json] is the outcome of its [json()] method,
    the decoded body or the decoder's exception; [cookies] gives what
    subscripting the response's cookies by a name gives. *)
Module Response.
Record t : Type := mk {
  content : string;
  status_code : Z;
  cookies : gmap string cookie;
  json : result pyval;
}.
End Response.

Module ResponseChecker.

Record t : Type := mk {
  _response : Response.t;
  _status : Z;
  _json : pyval;
}.

(** [_process_response]: the values of [_json] and [_status], and how many
    times [json()] was called on the response. *)
Definition _process_response (response : Response.t)
    : result (pyval * Z) * nat :=
  if truthy (Response.content response)
  then (j ← Response.json response; Ok (j, Response.status_code response),
        1%nat)
  else (Ok (JObj ∅, Response.status_code response), 0%nat).

(** [__init__]: the two attributes start as [None] and are assigned by
    [_process_response] before the constructor returns; an exception of the
    decoder leaves the constructor. *)
Definition __init__ (resposne : Response.t) : result t * nat :=
  let '(r, calls) := _process_response resposne in
  ('(j, s) ← r; Ok {| _response := resposne; _status := s; _json := j |},
   calls).

Definition key_value (self : t) (key : string) : result pyval :=
  value ← dict_get (_json self) key;
  assert_ (truthy value)
    [Text "Key "; Interp (JStr key); Text " not found in response data."];;
  Ok value.

Definition has_cookies (self : t) (key : string) : result string :=
  let cookies := Response.cookies (_response self) in
  assert_ (bool_decide (is_Some (cookies !! key)))
    [Text "Key "; Interp (JStr key); Text " is not in cookies."];;
  match cookies !! key with
  | Some (Morsel value) => Ok value
  | Some (PlainString _) =>
      Raise (AttributeError "'str' object has no attribute 'value'")
  | None => Raise (KeyError key)
  end.

Section paginated.

(** The constructor of the pagination schema applied to keyword arguments. *)
Variable PaginationDTO_new : gmap string pyval → result PaginationDTO.t.

(** [min_number_of_records] defaults to [0]. *)
Definition paginated (self : t) (min_number_of_records : Z)
    : result (pyval * PaginationDTO.t) :=
  results ← dict_get (_json self) "results";
  pagination_data ← dict_get (_json self) "pagination";
  results_number ← len results;
  assert_ (0 <? results_number)%Z
    [Text "Results number is "; Interp (JInt results_number); Text ", ";
     Text "but should be at least "; Interp (JInt min_number_of_records)];;
  assert_ (is_not_none results) [Text "No results data"];;
  assert_ (is_not_none pagination_data) [Text "No pagination data"];;
  pagination ← kwargs pagination_data ≫= PaginationDTO_new;
  Ok (results, pagination).

End paginated.

Definition check_exception (self : t) (api_exception : ApiException.t)
    : result unit :=
  let exception_status_code := ApiException._status_code api_exception in
  assert_ (Response.status_code (_response self) =? exception_status_code)%Z
    [Text "Status is: "; Interp (JInt (_status self)); Text " ";
     Text "but should be: "; Interp (JInt exception_status_code)];;
  let error_message := ApiException._api_client_message api_exception in
  message ← key_value self "message";
  assert_ (str_eq error_message message)
    [Text "Message to client is: "; Interp message;
     Text "but should be: "; Interp (JStr error_message)].

Definition validate_status (self : t) (code : Z) : result unit :=
  assert_ (_status self =? code)%Z
    [Text "Status is "; Interp (JInt (_status self));
     Text " but should be "; Interp (JInt code)].

Definition is_informational (self : t) : result unit :=
  assert_ (status.is_informational (_status self))
    [Text "Status is "; Interp (JInt (_status self))].

Definition is_success (self : t) : result unit :=
  assert_ (status.is_success (_status self))
    [Text "Status is "; Interp (JInt (_status self))].

Definition is_redirect (self : t) : result unit :=
  assert_ (status.is_redirect (_status self))
    [Text "Status is "; Interp (JInt (_status self))].

Definition is_client_error (self : t) : result unit :=
  assert_ (status.is_client_error (_status self))
    [Text "Status is "; Interp (JInt (_status self))].

Definition is_server_error (self : t) : result unit :=
  assert_ (status.is_server_error (_status self))
    [Text "Status is "; Interp (JInt (_status self))].

End ResponseChecker.

(** ** testing_tools/async_client.py *)

Module AsyncClientBoB.

(** The wrapper: its identity attributes, its headers, and the cookie jar
    of the test client it owns (cookie name to cookie value). *)
Record t : Type := mk {
  email : option string;
  uid : option string;
  password : option string;
  organization_id : option string;
  organization_name : option string;
  _headers : gmap string string;
  _client_cookies : gmap string string;
}.

(** [__init__]: a new test client starts with an empty cookie jar. *)
Definition __init__ (headers : gmap string string)
    (email uid password organization_id : option string) : t :=
  {| email := email; uid := uid; password := password;
     organization_id := organization_id; organization_name := None;
     _headers := headers; _client_cookies := ∅ |}.

(** The [headers] and [cookies] properties. *)
Definition headers (self : t) : gmap string string := _headers self.
Definition cookies (self : t) : gmap string string := _client_cookies self.

(** The setters, applied to the state of the object.  The [cookies]
    setter builds a [SimpleCookie] first, which may raise; the jar is
    replaced only if it does not. *)
Definition set_cookies (cookies : gmap string string) (self : t) : result t :=
  jar ← http_cookies.SimpleCookie cookies;
  Ok {| email := email self; uid := uid self; password := password self;
        organization_id := organization_id self;
        organization_name := organization_name self;
        _headers := _headers self; _client_cookies := jar |}.

Definition set_headers (headers : gmap string string) (self : t) : t :=
  {| email := email self; uid := uid self; password := password self;
     organization_id := organization_id self;
     organization_name := organization_name self;
     _headers := headers; _client_cookies := _client_cookies self |}.

Definition set_uid (uid : string) (self : t) : t :=
  {| email := email self; uid := Some uid; password := password self;
     organization_id := organization_id self;
     organization_name := organization_name self;
     _headers := _headers self; _client_cookies := _client_cookies self |}.

(** A call on the wrapped test client: the method, the path, for [post]
    and [patch] the body and its content type, and the headers. *)
Inductive http_method : Type := GET | POST | PATCH | DELETE.

Record request : Type := mk_request {
  method : http_method;
  path : string;
  data : option pyval;
  content_type : option string;
  request_headers : gmap string string;
}.

Section verbs.

(** The wrapped test client ([django.test.AsyncClient]) belongs to the web
    framework: given a request and the client's cookie jar it answers with
    a response, or with the exception that left the application, and with
    the jar as the exchange leaves it.  Awaiting the exchange is one step. *)
Variable client :
  request → gmap string string → result Response.t * gmap string string.

(** One call on [self._client]; the jar it leaves is the wrapper's. *)
Definition client_call (req : request) (self : t) : result Response.t * t :=
  let '(r, jar) := client req (_client_cookies self) in
  (r, {| email := email self; uid := uid self; password := password self;
         organization_id := organization_id self;
         organization_name := organization_name self;
         _headers := _headers self; _client_cookies := jar |}).

Definition get (path : string) (self : t) : result ResponseChecker.t * t :=
  let '(r, self') :=
    client_call {| method := GET; path := path; data := None;
                   content_type := None;
                   request_headers := _headers self |} self in
  (response ← r;
   let response_checker := ResponseChecker.__init__ response in
   response_checker.1, self').

(** [content_type] defaults to ['application/json']. *)
Definition post (path : string) (data : pyval) (content_type : option string)
    (self : t) : result ResponseChecker.t * t :=
  let '(r, self') :=
    client_call {| method := POST; path := path; data := Some data;
                   content_type :=
                     Some (default "application/json" content_type);
                   request_headers := _headers self |} self in
  (response ← r;
   let response_checker := ResponseChecker.__init__ response in
   response_checker.1, self').

Definition patch (path : string) (data : pyval) (content_type : string)
    (self : t) : result ResponseChecker.t * t :=
  let '(r, self') :=
    client_call {| method := PATCH; path := path; data := Some data;
                   content_type := Some content_type;
                   request_headers := _headers self |} self in
  (response ← r;
   let response_checker := ResponseChecker.__init__ response in
   response_checker.1, self').

Definition delete (path : string) (self : t) : result ResponseChecker.t * t :=
  let '(r, self') :=
    client_call {| method := DELETE; path := path; data := None;
                   content_type := None;
                   request_headers := _headers self |} self in
  (response ← r;
   let response_checker := ResponseChecker.__init__ response in
   response_checker.1, self').

End verbs.

End AsyncClientBoB.

(** ** testing_tools/fixtures.py *)

Definition generate_email (name : string) : string :=
  name +:+ "@test.businessorientedprogramming.com".

(** *** SharedData, a [dict] subclass *)

Module SharedData.

Section SharedData.
Context {V : Type}.

(** [key in self] *)
Definition contains (self : gmap string V) (key : string) : bool :=
  bool_decide (is_Some (self !! key)).

(** [self[key]] *)
Definition getitem (self : gmap string V) (key : string) : result V :=
  match self !! key with
  | Some v => Ok v
  | None => Raise (KeyError key)
  end.

(** [self[key] = value] *)
Definition setitem (self : gmap string V) (key : string) (value : V)
    : gmap string V :=
  <[key := value]> self.

(** The overridden [get]. *)
Definition get (self : gmap string V) (key : string) : result V :=
  assert_ (contains self key)
    [Text "Key: "; Interp (JStr key); Text " is not in shared_data"];;
  getitem self key.

End SharedData.

End SharedData.

(** *** The user factories *)

(** Wrappers are objects: the factory's mapping holds references to them,
    and two lookups of one name give the same reference.  [heap] is the
    list of wrappers allocated so far, a reference is a position in it. *)
Definition ref := nat.

Inductive factory_class : Type :=
  | AnonymousUserFactory
  | AuthorizedUserFactory.

Section factories.

(** The database behind the application's ORM, and what
    [UserModel.objects.get_or_create(username=.., email=..)] followed by
    [user.set_password(..)] and [user.save()] does to it, given the user
    name, the email and the password: both belong to the application under
    test, and the calls may raise. *)
Context {DB : Type}.
Variable save_user : string → string → string → DB → result unit * DB.

(** One factory instance and the state it acts on: its [_users] mapping,
    the wrappers, and the database. *)
Record store : Type := mk_store {
  _users : gmap string ref;
  heap : list AsyncClientBoB.t;
  db : DB;
}.

Definition with_users (f : gmap string ref → gmap string ref) (σ : store)
    : store :=
  {| _users := f (_users σ); heap := heap σ; db := db σ |}.

Definition with_heap (f : list AsyncClientBoB.t → list AsyncClientBoB.t)
    (σ : store) : store :=
  {| _users := _users σ; heap := f (heap σ); db := db σ |}.

(** Computations that read and write the store and may raise; what was
    written before an exception stays written. *)
Definition M (A : Type) : Type := store → result A * store.

#[global] Instance M_ret : MRet M := λ A a σ, (Ok a, σ).

#[global] Instance M_bind : MBind M := λ A B k m σ,
  match m σ with
  | (Ok a, σ') => k a σ'
  | (Raise e, σ') => (Raise e, σ')
  end.

Definition raise {A} (e : exn) : M A := λ σ, (Raise e, σ).

(** Creating an object gives a reference no earlier object has. *)
Definition new (c : AsyncClientBoB.t) : M ref :=
  λ σ, (Ok (length (heap σ)), with_heap (λ h, h ++ [c]) σ).

(** Assigning to an attribute of the object behind a reference. *)
Definition setattr (r : ref) (f : AsyncClientBoB.t → AsyncClientBoB.t)
    : M unit :=
  λ σ, (Ok tt, with_heap (alter f r) σ).

(** Calling a setter that may raise on the object behind a reference: the
    object changes only if the setter returns.  (A reference always names
    an object where this is used, on the reference just created.) *)
Definition setattr_try (r : ref)
    (f : AsyncClientBoB.t → result AsyncClientBoB.t) : M unit :=
  λ σ, match heap σ !! r with
       | Some c =>
           match f c with
           | Ok c' => (Ok tt, with_heap (<[r := c']>) σ)
           | Raise e => (Raise e, σ)
           end
       | None => (Ok tt, σ)
       end.

(** The ORM calls, acting on the database only. *)
Definition orm_save_user (uname email pw : string) : M unit :=
  λ σ, let '(r, d) := save_user uname email pw (db σ) in
       (r, {| _users := _users σ; heap := heap σ; db := d |}).

(** [AnonymousUserFactory._create] *)
Definition AnonymousUserFactory_create (name : string) : M ref :=
  client ← new (AsyncClientBoB.__init__ ∅ None None None None);
  setattr_try client
    (AsyncClientBoB.set_cookies {["ANONYMOUS_USER_EXTERNAL_ID" := name]});;
  setattr client (AsyncClientBoB.set_uid name);;
  mret client.

(** [AuthorizedUserFactory._create]: the statements after [assert False]
    are never reached. *)
Definition AuthorizedUserFactory_create (name : string) : M ref :=
  let email := generate_email name in
  let password := "Password123#@!" in
  orm_save_user "test" email password;;
  raise (AssertionError []).

(** Method dispatch on the class of the instance. *)
Definition _create (cls : factory_class) : string → M ref :=
  match cls with
  | AnonymousUserFactory => AnonymousUserFactory_create
  | AuthorizedUserFactory => AuthorizedUserFactory_create
  end.

(** [name in self._users], [self._users[name] = r] and [self._users[name]] *)
Definition users_contains (name : string) : M bool :=
  λ σ, (Ok (bool_decide (is_Some (_users σ !! name))), σ).

Definition users_setitem (name : string) (r : ref) : M unit :=
  λ σ, (Ok tt, with_users (<[name := r]>) σ).

Definition users_getitem (name : string) : M ref :=
  λ σ, match _users σ !! name with
       | Some r => (Ok r, σ)
       | None => (Raise (KeyError name), σ)
       end.

(** [get_user], inherited by both classes. *)
Definition get_user (cls : factory_class) (name : string) : M ref :=
  present ← users_contains name;
  (if negb present
   then r ← _create cls name; users_setitem name r
   else mret tt : M unit);;
  users_getitem name.

(** A factory as its [__init__] leaves it, before any wrapper exists. *)
Definition new_factory (d : DB) : store :=
  {| _users := ∅; heap := []; db := d |}.

(** The store after a series of [get_user] calls, whether they return or
    raise. *)
Fixpoint get_users (cls : factory_class) (names : list string) (σ : store)
    : store :=
  match names with
  | [] => σ
  | n :: names' => get_users cls names' (snd (get_user cls n σ))
  end.

End factories.

(** A database for concrete runs: a table of user rows by email, on which
    the ORM calls never fail. *)
Record user_row : Type := mk_user_row {
  username : string;
  user_password : string;
}.

Definition save_user_row (uname email pw : string)
    (table : gmap string user_row) : result unit * gmap string user_row :=
  (Ok tt, <[email := {| username := uname; user_password := pw |}]> table).

(** * Properties *)

(** ** Auxiliary notions and lemmas *)

(** The entry of the decoded body under a key; a body that is not a mapping
    has no entries. *)
Definition body_lookup (rc : ResponseChecker.t) (key : string)
    : option pyval :=
  match ResponseChecker._json rc with
  | JObj m => m !! key
  | _ => None
  end.

(** The checker over the same response object after that object's [json()]
    outcome has been replaced: used to state that no method decodes again. *)
Definition redecoded (j : result pyval) (rc : ResponseChecker.t)
    : ResponseChecker.t :=
  let r := ResponseChecker._response rc in
  {| ResponseChecker._response :=
       {| Response.content := Response.content r;
          Response.status_code := Response.status_code r;
          Response.cookies := Response.cookies r;
          Response.json := j |};
     ResponseChecker._status := ResponseChecker._status rc;
     ResponseChecker._json := ResponseChecker._json rc |}.

(** A response with the given status code and content whose [json()]
    returns [body], and the checker the constructor builds on it. *)
Definition response_of (code : Z) (content : string) (body : pyval)
    : Response.t :=
  {| Response.content := content; Response.status_code := code;
     Response.cookies := ∅; Response.json := Ok body |}.

Definition checker_of (code : Z) (content : string) (body : pyval)
    : ResponseChecker.t :=
  {| ResponseChecker._response := response_of code content body;
     ResponseChecker._status := code;
     ResponseChecker._json := body |}.

(** A key or string value as JSON text writes it, between double quotes. *)
Definition quoted (s : string) : string :=
  let q := String (Ascii.ascii_of_nat 34) EmptyString in q +:+ s +:+ q.

(** Bodies of the shape [{"results": [...], "pagination": {"current_page":
    ...}}], as text and decoded. *)
Definition page_content (results current_page : string) : string :=
  "{" +:+ quoted "results" +:+ ": " +:+ results +:+ ", "
  +:+ quoted "pagination" +:+ ": {" +:+ quoted "current_page" +:+ ": "
  +:+ current_page +:+ "}}".

Definition page_body (results : list pyval) (current_page : pyval) : pyval :=
  JObj (<["results" := JList results]>
        (<["pagination" := JObj {["current_page" := current_page]}]> ∅)).

(** The five class checks of a checker, in the order of the source. *)
Definition class_checks (rc : ResponseChecker.t) : list (result unit) :=
  [ResponseChecker.is_informational rc; ResponseChecker.is_success rc;
   ResponseChecker.is_redirect rc; ResponseChecker.is_client_error rc;
   ResponseChecker.is_server_error rc].

Definition passed (r : result unit) : bool :=
  match r with Ok _ => true | Raise _ => false end.

(** The four verbs of a wrapper as one type of calls, the request each one
    hands to the test client, and the call itself. *)
Inductive verb_call : Type :=
  | Get (path : string)
  | Post (path : string) (data : pyval) (content_type : option string)
  | Patch (path : string) (data : pyval) (content_type : string)
  | Delete (path : string).

Definition request_of (c : verb_call) (self : AsyncClientBoB.t)
    : AsyncClientBoB.request :=
  let h := AsyncClientBoB.headers self in
  match c with
  | Get p => AsyncClientBoB.mk_request AsyncClientBoB.GET p None None h
  | Post p d ct =>
      AsyncClientBoB.mk_request AsyncClientBoB.POST p (Some d)
        (Some (default "application/json" ct)) h
  | Patch p d ct =>
      AsyncClientBoB.mk_request AsyncClientBoB.PATCH p (Some d) (Some ct) h
  | Delete p => AsyncClientBoB.mk_request AsyncClientBoB.DELETE p None None h
  end.

Definition run_call
    (client : AsyncClientBoB.request → gmap string string
              → result Response.t * gmap string string)
    (c : verb_call) (self : AsyncClientBoB.t)
    : result ResponseChecker.t * AsyncClientBoB.t :=
  match c with
  | Get p => AsyncClientBoB.get client p self
  | Post p d ct => AsyncClientBoB.post client p d ct self
  | Patch p d ct => AsyncClientBoB.patch client p d ct self
  | Delete p => AsyncClientBoB.delete client p self
  end.

(** The wrapper the anonymous factory creates for a name. *)
Definition anonymous_wrapper (name : string) : AsyncClientBoB.t :=
  {| AsyncClientBoB.email := None; AsyncClientBoB.uid := Some name;
     AsyncClientBoB.password := None; AsyncClientBoB.organization_id := None;
     AsyncClientBoB.organization_name := None;
     AsyncClientBoB._headers := ∅;
     AsyncClientBoB._client_cookies :=
       {["ANONYMOUS_USER_EXTERNAL_ID" := name]} |}.

(** A name the anonymous factory can use as a cookie value: one without
    control characters. *)
Definition cookie_value_ok (name : string) : bool :=
  negb (http_cookies.any_char http_cookies.is_control name).

(** A name with a line feed in it. *)
Definition two_line_name : string :=
  "a" +:+ String (Ascii.ascii_of_nat 10) EmptyString +:+ "b".

(** The database after the ORM calls of the authorized factory have run for
    each of the names in turn. *)
Definition saved_users {DB : Type}
    (save_user : string → string → string → DB → result unit * DB)
    (names : list string) (d : DB) : DB :=
  foldl (λ d n, (save_user "test" (generate_email n) "Password123#@!" d).2)
    d names.

(** Every cached name refers to the wrapper created for that name. *)
Definition cache_holds_own_wrappers {DB : Type} (σ : @store DB) : Prop :=
  ∀ n r, _users σ !! n = Some r → heap σ !! r = Some (anonymous_wrapper n).

Ltac unfold_result :=
  cbv [mbind mret result_bind result_ret rbind assert_] in *.

Lemma occurs_in_middle (pre s post : string) :
  occurs_in s (pre +:+ s +:+ post).
Proof. by exists pre, post. Qed.

Lemma string_app_nil_r (a : string) : a +:+ "" = a.
Proof.
  induction a as [|x a IH]; [done|].
  change (String x (a +:+ "") = String x a). by rewrite IH.
Qed.

Lemma string_app_assoc (a b c : string) : (a +:+ b) +:+ c = a +:+ b +:+ c.
Proof.
  induction a as [|x a IH]; [done|].
  change (String x ((a +:+ b) +:+ c) = String x (a +:+ b +:+ c)).
  by rewrite IH.
Qed.

Lemma occurs_in_end (pre s : string) : occurs_in s (pre +:+ s).
Proof. exists pre, "". by rewrite string_app_nil_r. Qed.

Lemma string_truthy_false (s : string) : truthy s = false ↔ s = "".
Proof. destruct s; split; done. Qed.

Lemma Z_truthy_false (n : Z) : truthy n = false ↔ n = 0%Z.
Proof.
  unfold truthy, Z_truthy. destruct (Z.eqb_spec n 0); split; done.
Qed.

Lemma in_range_spec (lo hi code : Z) :
  status.in_range lo hi code = true ↔ (lo ≤ code ≤ hi)%Z.
Proof. unfold status.in_range. rewrite andb_true_iff. lia. Qed.

Lemma assert_ok (c : bool) (msg : fstring) : assert_ c msg = Ok tt ↔ c = true.
Proof. destruct c; split; done. Qed.

Lemma assert_raise (c : bool) (msg : fstring) (e : exn) :
  assert_ c msg = Raise e ↔ c = false ∧ e = AssertionError msg.
Proof.
  destruct c; simpl; split.
  - done.
  - by intros [? _].
  - intros [= <-]. done.
  - by intros [_ ->].
Qed.

(** ** ApiException *)

(** C10: the constructor's fallbacks test truthiness, not [None]-ness: with
    a falsy [status_code] ([None], also standing for an omitted argument, or
    [0]) the [status_code] property is the class default [400], with a falsy
    [api_client_message] ([None] or the empty string) the
    [api_client_message] property is the class default text; an explicit [0]
    or empty string is replaced by the default. *)
Theorem ApiException_falsy_arguments_fall_back
    (message api_client_message : option string) (status_code : option Z) :
  let e := (ApiException.__init__ message api_client_message status_code).1 in
  (truthy status_code = false → ApiException.status_code e = 400%Z)
  ∧ (truthy api_client_message = false →
     ApiException.api_client_message e = "Error occurred. Try again.")
  ∧ (truthy status_code = false ↔
     status_code = None ∨ status_code = Some 0%Z)
  ∧ (truthy api_client_message = false ↔
     api_client_message = None ∨ api_client_message = Some "").
Proof.
  simpl. repeat split.
  - destruct status_code as [n|]; [|done].
    unfold ApiException.status_code. simpl. intros H.
    change (truthy (Some n)) with (truthy n) in H. by rewrite H.
  - destruct api_client_message as [s|]; [|done].
    unfold ApiException.api_client_message. simpl. intros H.
    change (truthy (Some s)) with (truthy s) in H. by rewrite H.
  - destruct status_code as [n|]; [|by left].
    change (truthy (Some n)) with (truthy n). rewrite Z_truthy_false.
    intros ->. by right.
  - intros [->| ->]; done.
  - destruct api_client_message as [s|]; [|by left].
    change (truthy (Some s)) with (truthy s). rewrite string_truthy_false.
    intros ->. by right.
  - intros [->| ->]; done.
Qed.

Lemma ApiException_falsy_arguments_fall_back_witness :
  ApiException.status_code
    (ApiException.__init__ (Some "boom") (Some "") (Some 0%Z)).1 = 400%Z
  ∧ ApiException.api_client_message
      (ApiException.__init__ (Some "boom") (Some "") (Some 0%Z)).1
    = "Error occurred. Try again.".
Proof.
  destruct (ApiException_falsy_arguments_fall_back
              (Some "boom") (Some "") (Some 0%Z)) as (Hs & Hm & _).
  split; [apply Hs | apply Hm]; reflexivity.
Defined.

(** X3: truthy arguments are kept as given: a non-zero status code and a
    non-empty client message handed to the constructor are what the two
    properties return. *)
Lemma ApiException_truthy_arguments_kept
    (message : option string) (m : string) (n : Z) :
  n ≠ 0%Z → m ≠ "" →
  let e := (ApiException.__init__ message (Some m) (Some n)).1 in
  ApiException.status_code e = n ∧ ApiException.api_client_message e = m.
Proof.
  intros Hn Hm. simpl. unfold ApiException.status_code,
    ApiException.api_client_message. simpl.
  destruct (truthy n) eqn:En; [|by apply Z_truthy_false in En].
  destruct (truthy m) eqn:Em; [|by apply string_truthy_false in Em].
  done.
Qed.

(** Whatever the arguments, the instance holds a non-empty client message
    and a non-zero status code. *)
Lemma ApiException_attributes_truthy
    (message api_client_message : option string) (status_code : option Z) :
  let e := (ApiException.__init__ message api_client_message status_code).1 in
  truthy (ApiException._api_client_message e) = true
  ∧ ApiException._status_code e ≠ 0%Z.
Proof.
  simpl. split.
  - destruct api_client_message as [s|]; [|done]. simpl.
    by destruct (truthy s) eqn:E.
  - destruct status_code as [n|]; [|done]. simpl.
    destruct (truthy n) eqn:E; [|done].
    intros ->. done.
Qed.

(** ** SharedData *)

Lemma SharedData_get_present {V} (data : gmap string V) (k : string) (v : V) :
  data !! k = Some v → SharedData.get data k = Ok v.
Proof.
  intros H. unfold SharedData.get, SharedData.contains, SharedData.getitem.
  rewrite H, bool_decide_eq_true_2 by eauto. done.
Qed.

Lemma SharedData_get_absent {V} (data : gmap string V) (k : string) :
  data !! k = None →
  SharedData.get data k
  = Raise (AssertionError
             [Text "Key: "; Interp (JStr k); Text " is not in shared_data"]).
Proof.
  intros H. unfold SharedData.get, SharedData.contains.
  rewrite bool_decide_eq_false_2; [done|].
  rewrite H. by intros [? ?].
Qed.

(** C8: after [data[k] = v], [data.get(k)] returns [v]; for a key [k'] that
    is not in the mapping, [data.get(k')] raises an assertion failure whose
    message names [k'], and [get] never returns anything but the stored
    value (no default). *)
Theorem SharedData_get_is_fail_fast {V}
    (data : gmap string V) (k : string) (v : V) :
  SharedData.get (SharedData.setitem data k v) k = Ok v
  ∧ (∀ k' : string, data !! k' = None →
       ∃ msg text,
         SharedData.get data k' = Raise (AssertionError msg)
         ∧ render msg = Some text
         ∧ occurs_in k' text)
  ∧ (∀ (k' : string) (v' : V),
       SharedData.get data k' = Ok v' → data !! k' = Some v').
Proof.
  split; [|split].
  - apply SharedData_get_present. unfold SharedData.setitem.
    apply lookup_insert_eq.
  - intros k' Hk'. eexists _, _. split; [by apply SharedData_get_absent|].
    split; [reflexivity|]. apply occurs_in_middle.
  - intros k' v' Hget. destruct (data !! k') as [w|] eqn:E.
    + rewrite (SharedData_get_present _ _ _ E) in Hget. congruence.
    + rewrite (SharedData_get_absent _ _ E) in Hget. discriminate.
Qed.

Lemma SharedData_get_is_fail_fast_witness :
  SharedData.get (SharedData.setitem (∅ : gmap string Z) "x" 1%Z) "x" = Ok 1%Z
  ∧ ∃ msg text,
      SharedData.get (∅ : gmap string Z) "y" = Raise (AssertionError msg)
      ∧ render msg = Some text ∧ occurs_in "y" text.
Proof.
  destruct (SharedData_get_is_fail_fast (∅ : gmap string Z) "x" 1%Z)
    as (Hset & Hmiss & _).
  split; [exact Hset|]. apply Hmiss. reflexivity.
Defined.

(** ** ResponseChecker: construction *)

Lemma process_response_calls (r : Response.t) :
  (ResponseChecker.__init__ r).2
  = if truthy (Response.content r) then 1 else 0.
Proof.
  unfold ResponseChecker.__init__, ResponseChecker._process_response.
  by destruct (truthy (Response.content r)).
Qed.

(** The methods read [_json] and [_status] (and the status code and cookies
    of the response); none of them calls [json()] again. *)
Lemma methods_do_not_decode
    (validate : gmap string pyval → result PaginationDTO.t)
    (j : result pyval) (rc : ResponseChecker.t) :
  (∀ k, ResponseChecker.key_value (redecoded j rc) k
        = ResponseChecker.key_value rc k)
  ∧ (∀ m, ResponseChecker.paginated validate (redecoded j rc) m
          = ResponseChecker.paginated validate rc m)
  ∧ (∀ e, ResponseChecker.check_exception (redecoded j rc) e
          = ResponseChecker.check_exception rc e)
  ∧ (∀ c, ResponseChecker.validate_status (redecoded j rc) c
          = ResponseChecker.validate_status rc c)
  ∧ ResponseChecker.is_informational (redecoded j rc)
    = ResponseChecker.is_informational rc
  ∧ ResponseChecker.is_success (redecoded j rc)
    = ResponseChecker.is_success rc
  ∧ ResponseChecker.is_redirect (redecoded j rc)
    = ResponseChecker.is_redirect rc
  ∧ ResponseChecker.is_client_error (redecoded j rc)
    = ResponseChecker.is_client_error rc
  ∧ ResponseChecker.is_server_error (redecoded j rc)
    = ResponseChecker.is_server_error rc.
Proof. repeat split. Qed.

(** C7: constructing a checker decodes the body at construction and never
    again.  With empty content nothing is handed to the decoder and the body
    is the empty mapping; with non-empty content [json()] is called exactly
    once, by the constructor: if it raises, the constructor raises that
    exception and no checker exists; if it returns, the decoded body and the
    status code are stored.  No method decodes afterwards: its outcome does
    not depend on what [json()] would return later. *)
Theorem ResponseChecker_decodes_once_at_construction (r : Response.t) :
  (Response.content r = "" →
     ResponseChecker.__init__ r
     = (Ok {| ResponseChecker._response := r;
              ResponseChecker._status := Response.status_code r;
              ResponseChecker._json := JObj ∅ |}, 0))
  ∧ (Response.content r ≠ "" →
       (∀ e, Response.json r = Raise e →
             ResponseChecker.__init__ r = (Raise e, 1))
       ∧ (∀ j, Response.json r = Ok j →
               ResponseChecker.__init__ r
               = (Ok {| ResponseChecker._response := r;
                        ResponseChecker._status := Response.status_code r;
                        ResponseChecker._json := j |}, 1)))
  ∧ (∀ rc j' k,
       (ResponseChecker.__init__ r).1 = Ok rc →
       ResponseChecker.key_value (redecoded j' rc) k
       = ResponseChecker.key_value rc k
       ∧ ResponseChecker.validate_status (redecoded j' rc)
         = ResponseChecker.validate_status rc
       ∧ ResponseChecker._status rc = Response.status_code r).
Proof.
  unfold ResponseChecker.__init__, ResponseChecker._process_response.
  split; [|split].
  - intros ->. reflexivity.
  - intros Hne.
    destruct (Response.content r) as [|a s] eqn:E; [done|]. simpl.
    split; [intros e -> | intros j ->]; reflexivity.
  - intros rc j' k Hrc. split; [reflexivity|]. split; [reflexivity|].
    destruct (truthy (Response.content r)); simpl in Hrc.
    + destruct (Response.json r); simpl in Hrc; [|discriminate].
      by injection Hrc as <-.
    + by injection Hrc as <-.
Qed.

Lemma ResponseChecker_decodes_once_at_construction_witness :
  ResponseChecker.__init__
    {| Response.content := ""; Response.status_code := 204;
       Response.cookies := ∅;
       Response.json := Raise (JSONDecodeError "Expecting value") |}
  = (Ok {| ResponseChecker._response :=
             {| Response.content := ""; Response.status_code := 204;
                Response.cookies := ∅;
                Response.json := Raise (JSONDecodeError "Expecting value") |};
           ResponseChecker._status := 204;
           ResponseChecker._json := JObj ∅ |}, 0)
  ∧ ResponseChecker.__init__
      {| Response.content := "{"; Response.status_code := 200;
         Response.cookies := ∅;
         Response.json := Raise (JSONDecodeError "Expecting property name") |}
    = (Raise (JSONDecodeError "Expecting property name"), 1).
Proof.
  split.
  - apply (ResponseChecker_decodes_once_at_construction
             {| Response.content := ""; Response.status_code := 204;
                Response.cookies := ∅;
                Response.json := Raise (JSONDecodeError "Expecting value") |}).
    reflexivity.
  - apply (ResponseChecker_decodes_once_at_construction
             {| Response.content := "{"; Response.status_code := 200;
                Response.cookies := ∅;
                Response.json :=
                  Raise (JSONDecodeError "Expecting property name") |}).
    + discriminate.
    + reflexivity.
Defined.

(** ** ResponseChecker: status checks *)

Lemma init_status (r : Response.t) (rc : ResponseChecker.t) :
  (ResponseChecker.__init__ r).1 = Ok rc →
  ResponseChecker._status rc = Response.status_code r
  ∧ ResponseChecker._response rc = r.
Proof.
  unfold ResponseChecker.__init__, ResponseChecker._process_response.
  destruct (truthy (Response.content r)); simpl.
  - destruct (Response.json r); simpl; [|discriminate].
    by intros [= <-].
  - by intros [= <-].
Qed.

Lemma class_check_spec (p : Z → bool) (lo hi : Z) (rc : ResponseChecker.t) :
  (∀ c, p c = status.in_range lo hi c) →
  (assert_ (p (ResponseChecker._status rc))
     [Text "Status is "; Interp (JInt (ResponseChecker._status rc))] = Ok tt
   ↔ (lo ≤ ResponseChecker._status rc ≤ hi)%Z)
  ∧ (¬ (lo ≤ ResponseChecker._status rc ≤ hi)%Z →
     assert_ (p (ResponseChecker._status rc))
       [Text "Status is "; Interp (JInt (ResponseChecker._status rc))]
     = Raise (AssertionError
                [Text "Status is ";
                 Interp (JInt (ResponseChecker._status rc))])).
Proof.
  intros Hp. rewrite assert_ok, Hp, in_range_spec. split; [done|].
  intros Hn. destruct (status.in_range lo hi _) eqn:E; [|done].
  by apply in_range_spec in E.
Qed.

(** C6: on a checker built from a response, [validate_status(C)] passes
    exactly when the response's status code is [C], and otherwise raises an
    assertion failure whose message shows both the actual and the expected
    code; each of the five class checks passes exactly when the status code
    lies in its class (1xx, 2xx, 3xx, 4xx, 5xx) and raises an assertion
    failure otherwise. *)
Theorem status_checks_spec
    (r : Response.t) (rc : ResponseChecker.t) (C : Z) :
  (ResponseChecker.__init__ r).1 = Ok rc →
  let s := Response.status_code r in
  (ResponseChecker.validate_status rc C = Ok tt ↔ s = C)
  ∧ (s ≠ C →
     ∃ msg text,
       ResponseChecker.validate_status rc C = Raise (AssertionError msg)
       ∧ render msg = Some text
       ∧ occurs_in (pretty s) text ∧ occurs_in (pretty C) text)
  ∧ (ResponseChecker.is_informational rc = Ok tt ↔ (100 ≤ s ≤ 199)%Z)
  ∧ (ResponseChecker.is_success rc = Ok tt ↔ (200 ≤ s ≤ 299)%Z)
  ∧ (ResponseChecker.is_redirect rc = Ok tt ↔ (300 ≤ s ≤ 399)%Z)
  ∧ (ResponseChecker.is_client_error rc = Ok tt ↔ (400 ≤ s ≤ 499)%Z)
  ∧ (ResponseChecker.is_server_error rc = Ok tt ↔ (500 ≤ s ≤ 599)%Z)
  ∧ (∀ check,
       check ∈ [ResponseChecker.is_informational; ResponseChecker.is_success;
                ResponseChecker.is_redirect; ResponseChecker.is_client_error;
                ResponseChecker.is_server_error] →
       check rc = Ok tt
       ∨ check rc = Raise (AssertionError
                             [Text "Status is "; Interp (JInt s)])).
Proof.
  intros Hrc s. destruct (init_status _ _ Hrc) as [Hs _]. fold s in Hs.
  split; [|split].
  - unfold ResponseChecker.validate_status. rewrite assert_ok, Hs. lia.
  - intros Hne.
    exists [Text "Status is "; Interp (JInt s);
            Text " but should be "; Interp (JInt C)],
           ("Status is " +:+ pretty s +:+ " but should be " +:+ pretty C
            +:+ "").
    split; [|split; [reflexivity|split]].
    + unfold ResponseChecker.validate_status. rewrite Hs.
      apply assert_raise. split; [lia|reflexivity].
    + apply (occurs_in_middle "Status is ").
    + exists ("Status is " +:+ pretty s +:+ " but should be "), "".
      by rewrite !string_app_assoc.
  - rewrite <- Hs.
    split; [exact (proj1 (class_check_spec status.is_informational
                            100 199 rc (λ _, eq_refl)))|].
    split; [exact (proj1 (class_check_spec status.is_success
                            200 299 rc (λ _, eq_refl)))|].
    split; [exact (proj1 (class_check_spec status.is_redirect
                            300 399 rc (λ _, eq_refl)))|].
    split; [exact (proj1 (class_check_spec status.is_client_error
                            400 499 rc (λ _, eq_refl)))|].
    split; [exact (proj1 (class_check_spec status.is_server_error
                            500 599 rc (λ _, eq_refl)))|].
    intros check Hin.
    repeat (apply elem_of_cons in Hin as [->|Hin]);
      [unfold ResponseChecker.is_informational
      |unfold ResponseChecker.is_success
      |unfold ResponseChecker.is_redirect
      |unfold ResponseChecker.is_client_error
      |unfold ResponseChecker.is_server_error
      |by apply elem_of_nil in Hin];
      match goal with
      | |- context [assert_ ?c _] => destruct c; simpl; auto
      end.
Qed.

Lemma status_checks_spec_witness :
  let r := {| Response.content := ""; Response.status_code := 404;
              Response.cookies := ∅; Response.json := Ok JNull |} in
  ∃ rc, (ResponseChecker.__init__ r).1 = Ok rc
        ∧ ResponseChecker.validate_status rc 404 = Ok tt
        ∧ ResponseChecker.is_client_error rc = Ok tt
        ∧ ∃ msg text,
            ResponseChecker.validate_status rc 200
            = Raise (AssertionError msg)
            ∧ render msg = Some text
            ∧ occurs_in "404" text ∧ occurs_in "200" text.
Proof.
  intros r. eexists. split; [reflexivity|].
  destruct (status_checks_spec r _ 404%Z eq_refl)
    as (Hv & _ & _ & _ & _ & Hc & _).
  destruct (status_checks_spec r _ 200%Z eq_refl) as (_ & Hm & _).
  split; [by apply Hv|]. split; [apply Hc; simpl; lia|].
  apply Hm. discriminate.
Defined.

(** ** ResponseChecker: key lookup *)

Lemma dict_get_not_mapping (rc : ResponseChecker.t) (key : string) :
  (∀ m, ResponseChecker._json rc ≠ JObj m) →
  ∃ msg, dict_get (ResponseChecker._json rc) key = Raise (AttributeError msg).
Proof.
  intros H. destruct (ResponseChecker._json rc) eqn:E; simpl; eauto.
  by destruct (H m).
Qed.

(** What [key_value] does on any checker, by the entry of the body. *)
Lemma key_value_cases (rc : ResponseChecker.t) (key : string) :
  match body_lookup rc key with
  | Some v =>
      if truthy v then ResponseChecker.key_value rc key = Ok v
      else ResponseChecker.key_value rc key
           = Raise (AssertionError
                      [Text "Key "; Interp (JStr key);
                       Text " not found in response data."])
  | None => ∃ e, ResponseChecker.key_value rc key = Raise e
            ∧ ∀ m, ResponseChecker._json rc = JObj m → is_assertion e
  end.
Proof.
  unfold body_lookup, ResponseChecker.key_value.
  destruct (ResponseChecker._json rc) as [| | | | | |m] eqn:E;
    try (eexists; split; [reflexivity|]; intros m' [=]).
  simpl. destruct (m !! key) as [v|]; simpl.
  - unfold_result. by destruct (truthy v).
  - eexists; split; [reflexivity|]. done.
Qed.

(** C2 as stated does not hold for every checker: a response whose body is
    the JSON array [[1]] gives a checker on which [key_value("a")], the key
    being absent, raises the [AttributeError] of the missing [get] method,
    not an assertion failure. *)
Lemma key_value_array_body_counterexample :
  let rc := checker_of 200 "[1]" (JList [JInt 1]) in
  (ResponseChecker.__init__ (response_of 200 "[1]" (JList [JInt 1]))).1
  = Ok rc
  ∧ body_lookup rc "a" = None
  ∧ ResponseChecker.key_value rc "a"
    = Raise (AttributeError "'list' object has no attribute 'get'")
  ∧ ¬ (∃ msg, ResponseChecker.key_value rc "a"
              = Raise (AssertionError msg)).
Proof.
  intros rc. split; [reflexivity|]. split; [reflexivity|].
  split; [reflexivity|]. intros [msg H]. discriminate H.
Qed.

(** C2, as amended: on a checker whose decoded body is a mapping,
    [key_value(K)] returns the value bound to [K] when that value is truthy,
    and raises an assertion failure exactly when [K] is absent from the body
    or bound to a falsy value; it raises nothing else.  [0], [False], the
    empty string, the empty list and [None] are falsy. *)
Theorem key_value_spec
    (rc : ResponseChecker.t) (body : gmap string pyval) (K : string) :
  ResponseChecker._json rc = JObj body →
  (∀ v, body !! K = Some v → truthy v = true →
        ResponseChecker.key_value rc K = Ok v)
  ∧ ((∃ msg, ResponseChecker.key_value rc K = Raise (AssertionError msg))
     ↔ body !! K = None ∨ ∃ v, body !! K = Some v ∧ truthy v = false)
  ∧ (∀ e, ResponseChecker.key_value rc K = Raise e → is_assertion e)
  ∧ truthy (JInt 0) = false ∧ truthy (JBool false) = false
  ∧ truthy (JStr "") = false ∧ truthy (JList []) = false
  ∧ truthy JNull = false.
Proof.
  intros Hbody.
  pose proof (key_value_cases rc K) as Hc.
  assert (body_lookup rc K = body !! K) as Hl
    by (unfold body_lookup; by rewrite Hbody).
  rewrite Hl in Hc.
  split; [|split; [|split; [|by repeat split]]].
  - intros v Hv Ht. rewrite Hv, Ht in Hc. exact Hc.
  - destruct (body !! K) as [v|] eqn:Ev.
    + destruct (truthy v) eqn:Et.
      * rewrite Hc. split; [by intros [msg [=]]|].
        intros [[=]|(v' & [= <-] & Hf)]. congruence.
      * split; [intros _; right; eauto|]. intros _. eauto.
    + destruct Hc as (e & He & Ha). split; [by left|]. intros _.
      specialize (Ha body Hbody). rewrite He.
      destruct e; try done. eauto.
  - intros e He. destruct (body !! K) as [v|] eqn:Ev.
    + destruct (truthy v); rewrite He in Hc; [discriminate|].
      by injection Hc as ->.
    + destruct Hc as (e' & He' & Ha). rewrite He in He'.
      injection He' as <-. by apply (Ha body).
Qed.

Lemma key_value_spec_witness :
  let rc := checker_of 200 ("{" +:+ quoted "a" +:+ ": 1}")
              (JObj {[ "a" := JInt 1 ]}) in
  ResponseChecker.key_value rc "a" = Ok (JInt 1)
  ∧ (∃ msg, ResponseChecker.key_value rc "b" = Raise (AssertionError msg))
  ∧ ∀ e, ResponseChecker.key_value rc "b" = Raise e → is_assertion e.
Proof.
  intros rc.
  destruct (key_value_spec rc {[ "a" := JInt 1 ]} "a" eq_refl)
    as (Hreturns & _).
  destruct (key_value_spec rc {[ "a" := JInt 1 ]} "b" eq_refl)
    as (_ & Hraises & Hassert & _).
  split; [apply Hreturns; reflexivity|]. split; [|exact Hassert].
  apply Hraises. left. reflexivity.
Defined.

(** The documented limitation: a body [{"a": 0}] makes [key_value("a")]
    fail. *)
Example key_value_zero_fails :
  ResponseChecker.key_value
    (checker_of 200 ("{" +:+ quoted "a" +:+ ": 0}")
       (JObj {[ "a" := JInt 0 ]})) "a"
  = Raise (AssertionError
             [Text "Key "; Interp (JStr "a");
              Text " not found in response data."]).
Proof. reflexivity. Qed.

(** On a body that is not a mapping the lookup itself fails, before any
    assertion. *)
Lemma key_value_not_mapping (rc : ResponseChecker.t) (key : string) :
  (∀ m, ResponseChecker._json rc ≠ JObj m) →
  ∃ msg, ResponseChecker.key_value rc key = Raise (AttributeError msg).
Proof.
  intros H. destruct (dict_get_not_mapping rc key H) as [msg Hm].
  exists msg. unfold ResponseChecker.key_value. by rewrite Hm.
Qed.

(** ** ResponseChecker: matching an expected exception *)

Lemma str_eq_spec (s : string) (v : pyval) :
  str_eq s v = true ↔ v = JStr s.
Proof.
  destruct v; simpl; try (split; [done|by intros [=]]).
  rewrite bool_decide_eq_true. split; [by intros ->|by intros [= ->]].
Qed.

(** For an expected exception whose client message is not empty. *)
Lemma check_exception_cases (rc : ResponseChecker.t) (E : ApiException.t) :
  truthy (ApiException._api_client_message E) = true →
  (ResponseChecker.check_exception rc E = Ok tt
   ↔ Response.status_code (ResponseChecker._response rc)
     = ApiException._status_code E
     ∧ body_lookup rc "message"
       = Some (JStr (ApiException._api_client_message E)))
  ∧ (∀ e m, ResponseChecker.check_exception rc E = Raise e →
            ResponseChecker._json rc = JObj m → is_assertion e).
Proof.
  intros Htruthy. unfold ResponseChecker.check_exception.
  pose proof (key_value_cases rc "message") as Hkv.
  destruct (Z.eqb_spec (Response.status_code (ResponseChecker._response rc))
              (ApiException._status_code E)) as [Heq|Hne]; simpl.
  2: { split; [split; [done|by intros [? _]]|]. by intros e m [= <-] _. }
  change (assert_ true ?m ≫= ?k) with (k tt). cbv beta.
  destruct (body_lookup rc "message") as [v|] eqn:Ev.
  - destruct (truthy v) eqn:Et.
    + rewrite Hkv. change (Ok v ≫= ?k) with (k v). cbv beta.
      split.
      * rewrite assert_ok, str_eq_spec.
        split; [by intros ->|by intros [_ [= ->]]].
      * intros e m He _. by apply assert_raise in He as [_ ->].
    + rewrite Hkv. split.
      * split; [done|]. intros [_ [= ->]].
        change (truthy (JStr (ApiException._api_client_message E)))
          with (truthy (ApiException._api_client_message E)) in Et.
        congruence.
      * by intros e m [= <-] _.
  - destruct Hkv as (e' & -> & Ha). split.
    + split; [done|by intros [_ ?]].
    + intros e m [= <-] Hm. by apply (Ha m).
Qed.

(** C5: for an expected [ApiException] (as its constructor builds it, from
    any arguments), [check_exception] passes exactly when the response's
    status code equals the exception's status code and the body's [message]
    entry equals the exception's client message; otherwise it raises, and
    on a body that is a mapping what it raises is an assertion failure. *)
Theorem check_exception_spec (rc : ResponseChecker.t)
    (message api_client_message : option string) (status_code : option Z) :
  let E := (ApiException.__init__ message api_client_message status_code).1 in
  let matches :=
    Response.status_code (ResponseChecker._response rc)
    = ApiException.status_code E
    ∧ body_lookup rc "message" = Some (JStr (ApiException.api_client_message E))
  in
  (ResponseChecker.check_exception rc E = Ok tt ↔ matches)
  ∧ (¬ matches → ∃ e, ResponseChecker.check_exception rc E = Raise e)
  ∧ (∀ e m, ResponseChecker.check_exception rc E = Raise e →
            ResponseChecker._json rc = JObj m → is_assertion e).
Proof.
  intros E matches.
  destruct (ApiException_attributes_truthy
              message api_client_message status_code) as [Ht _].
  destruct (check_exception_cases rc E Ht) as [Hiff Hassert].
  split; [exact Hiff|]. split; [|exact Hassert].
  intros Hn. destruct (ResponseChecker.check_exception rc E) as [[]|e] eqn:Ec.
  - by destruct Hn; apply Hiff.
  - by exists e.
Qed.

Lemma check_exception_spec_witness :
  let rc := checker_of 404
              ("{" +:+ quoted "message" +:+ ": " +:+ quoted "Not found" +:+ "}")
              (JObj {[ "message" := JStr "Not found" ]}) in
  ResponseChecker.check_exception rc
    (ApiException.__init__ None (Some "Not found") (Some 404%Z)).1 = Ok tt
  ∧ ∃ e, ResponseChecker.check_exception rc
           (ApiException.__init__ None None None).1 = Raise e.
Proof.
  intros rc. split.
  - apply (check_exception_spec rc None (Some "Not found") (Some 404%Z)).
    split; reflexivity.
  - apply (check_exception_spec rc None None None).
    intros [H _]. discriminate H.
Defined.

(** ** ResponseChecker: pagination *)

Section paginated_properties.

(** Any constructor of the pagination schema. *)
Variable PaginationDTO_new : gmap string pyval → result PaginationDTO.t.

#[local] Abbreviation paginated :=
  (ResponseChecker.paginated PaginationDTO_new).

(** [paginated] on a body that is a mapping, step by step. *)
Lemma paginated_on_mapping (rc : ResponseChecker.t) (body : gmap string pyval)
    (min_number_of_records : Z) :
  ResponseChecker._json rc = JObj body →
  paginated rc min_number_of_records
  = (let results := default JNull (body !! "results") in
     let pagination_data := default JNull (body !! "pagination") in
     results_number ← len results;
     assert_ (0 <? results_number)%Z
       [Text "Results number is "; Interp (JInt results_number); Text ", ";
        Text "but should be at least "; Interp (JInt min_number_of_records)];;
     assert_ (is_not_none results) [Text "No results data"];;
     assert_ (is_not_none pagination_data) [Text "No pagination data"];;
     pagination ← kwargs pagination_data ≫= PaginationDTO_new;
     Ok (results, pagination)).
Proof. intros H. unfold ResponseChecker.paginated. by rewrite H. Qed.

Lemma paginated_not_mapping (rc : ResponseChecker.t) (m : Z) :
  (∀ body, ResponseChecker._json rc ≠ JObj body) →
  ∃ msg, paginated rc m = Raise (AttributeError msg).
Proof.
  intros H. destruct (dict_get_not_mapping rc "results" H) as [msg Hm].
  exists msg. unfold ResponseChecker.paginated. by rewrite Hm.
Qed.

Lemma body_lookup_mapping (rc : ResponseChecker.t) (key : string) (v : pyval) :
  body_lookup rc key = Some v →
  ∃ body, ResponseChecker._json rc = JObj body ∧ body !! key = Some v.
Proof.
  unfold body_lookup. destruct (ResponseChecker._json rc); try done. eauto.
Qed.

Lemma body_mapping_or_not (rc : ResponseChecker.t) :
  (∃ body, ResponseChecker._json rc = JObj body)
  ∨ (∀ body, ResponseChecker._json rc ≠ JObj body).
Proof. destruct (ResponseChecker._json rc); eauto. Qed.

Lemma paginated_results_empty (rc : ResponseChecker.t) (m : Z) :
  body_lookup rc "results" = Some (JList []) →
  paginated rc m
  = Raise (AssertionError
             [Text "Results number is "; Interp (JInt 0); Text ", ";
              Text "but should be at least "; Interp (JInt m)]).
Proof.
  intros (body & Hb & Hr)%body_lookup_mapping.
  rewrite (paginated_on_mapping _ _ _ Hb), Hr. reflexivity.
Qed.

(** A missing [results] entry reaches [len(None)]: the assertion that would
    report it comes after that call. *)
Lemma paginated_results_missing (rc : ResponseChecker.t) (m : Z) :
  body_lookup rc "results" = None →
  ∃ msg, paginated rc m = Raise (TypeError msg)
         ∨ paginated rc m = Raise (AttributeError msg).
Proof.
  intros Hr. destruct (body_mapping_or_not rc) as [[body Hb]|Hn].
  - unfold body_lookup in Hr. rewrite Hb in Hr.
    rewrite (paginated_on_mapping _ _ _ Hb), Hr. eexists. left. reflexivity.
  - destruct (paginated_not_mapping rc m Hn) as [msg Hm]. eauto.
Qed.

Lemma paginated_pagination_missing (rc : ResponseChecker.t) (m : Z) :
  body_lookup rc "pagination" = None →
  ∃ e, paginated rc m = Raise e.
Proof.
  intros Hp. destruct (body_mapping_or_not rc) as [[body Hb]|Hn].
  - unfold body_lookup in Hp. rewrite Hb in Hp.
    rewrite (paginated_on_mapping _ _ _ Hb), Hp. simpl.
    destruct (len (default JNull (body !! "results"))) as [n|e];
      [|by eexists].
    change (Ok n ≫= ?k) with (k n). cbv beta.
    destruct (0 <? n)%Z; [|by eexists].
    change (assert_ true ?msg ≫= ?k) with (k tt). cbv beta.
    destruct (is_not_none (default JNull (body !! "results")));
      by eexists.
  - destruct (paginated_not_mapping rc m Hn) as [msg Hm]. eauto.
Qed.

Lemma paginated_success (rc : ResponseChecker.t) (m : Z)
    (x : pyval) (xs : list pyval) (pm : gmap string pyval) :
  body_lookup rc "results" = Some (JList (x :: xs)) →
  body_lookup rc "pagination" = Some (JObj pm) →
  paginated rc m
  = (pagination ← PaginationDTO_new pm; Ok (JList (x :: xs), pagination)).
Proof.
  intros (body & Hb & Hr)%body_lookup_mapping Hp.
  unfold body_lookup in Hp. rewrite Hb in Hp.
  rewrite (paginated_on_mapping _ _ _ Hb), Hr, Hp. reflexivity.
Qed.

(** C3: [paginated(m)] fails whenever the body's [results] entry is the
    empty list (an assertion failure), or [results] is missing, or
    [pagination] is missing; and when [results] is a non-empty list and
    [pagination] is a mapping that the pagination schema accepts, it returns
    the pair of the results and the schema instance built from that
    mapping. *)
Theorem paginated_spec (rc : ResponseChecker.t) (m : Z) :
  (body_lookup rc "results" = Some (JList []) →
     ∃ msg, paginated rc m = Raise (AssertionError msg))
  ∧ (body_lookup rc "results" = None → ∃ e, paginated rc m = Raise e)
  ∧ (body_lookup rc "pagination" = None → ∃ e, paginated rc m = Raise e)
  ∧ (∀ x xs pm dto,
       body_lookup rc "results" = Some (JList (x :: xs)) →
       body_lookup rc "pagination" = Some (JObj pm) →
       PaginationDTO_new pm = Ok dto →
       paginated rc m = Ok (JList (x :: xs), dto)).
Proof.
  split; [|split; [|split]].
  - intros H. eexists. by apply paginated_results_empty.
  - intros H. destruct (paginated_results_missing rc m H) as [msg [Hm|Hm]];
      eauto.
  - apply paginated_pagination_missing.
  - intros x xs pm dto Hr Hp Hv.
    rewrite (paginated_success rc m x xs pm Hr Hp), Hv. reflexivity.
Qed.

(** The parameter only appears in the text of one assertion message:
    whether [paginated] returns, and what, does not depend on it. *)
Lemma paginated_result_independent (rc : ResponseChecker.t) (m1 m2 : Z)
    (r : pyval * PaginationDTO.t) :
  paginated rc m1 = Ok r → paginated rc m2 = Ok r.
Proof.
  destruct (body_mapping_or_not rc) as [[body Hb]|Hn].
  - rewrite !(paginated_on_mapping _ _ _ Hb). simpl.
    destruct (len (default JNull (body !! "results"))) as [n|e]; [|done].
    change (Ok n ≫= ?k) with (k n). cbv beta.
    destruct (0 <? n)%Z; [|done]. done.
  - destruct (paginated_not_mapping rc m1 Hn) as [msg Hm].
    rewrite Hm. discriminate.
Qed.

(** C4, as amended: on a body with a non-empty [results] list and a
    [pagination] mapping that the pagination schema accepts, [paginated(m1)]
    and [paginated(m2)] both succeed with the same result for any [m1] and
    [m2]; the parameter is never compared with the number of records, so the
    call succeeds also when there are fewer records than asked for. *)
Theorem paginated_ignores_min_number_of_records
    (rc : ResponseChecker.t) (m1 m2 : Z)
    (x : pyval) (xs : list pyval) (pm : gmap string pyval)
    (dto : PaginationDTO.t) :
  body_lookup rc "results" = Some (JList (x :: xs)) →
  body_lookup rc "pagination" = Some (JObj pm) →
  PaginationDTO_new pm = Ok dto →
  paginated rc m1 = Ok (JList (x :: xs), dto)
  ∧ paginated rc m2 = Ok (JList (x :: xs), dto)
  ∧ (∀ m, (Z.of_nat (length (x :: xs)) < m)%Z →
          paginated rc m = Ok (JList (x :: xs), dto)).
Proof.
  intros Hr Hp Hv.
  assert (∀ m, paginated rc m = Ok (JList (x :: xs), dto)) as H.
  { intros m. rewrite (paginated_success rc m x xs pm Hr Hp), Hv.
    reflexivity. }
  auto.
Qed.

End paginated_properties.

Lemma checker_of_init (code : Z) (content : string) (body : pyval) :
  content ≠ "" →
  ResponseChecker.__init__ (response_of code content body)
  = (Ok (checker_of code content body), 1).
Proof.
  intros Hne. unfold ResponseChecker.__init__,
    ResponseChecker._process_response. simpl.
  destruct content; [done|]. reflexivity.
Qed.

(** The body [{"results": [1, 2], "pagination": {"current_page": 1,
    "total_pages": 1, "total_items": 2, "has_next": false,
    "has_previous": false}}]. *)
Example paginated_example :
  ResponseChecker.paginated PaginationDTO.validate
    (checker_of 200
       ("{" +:+ quoted "results" +:+ ": [1, 2], " +:+ quoted "pagination"
        +:+ ": {" +:+ quoted "current_page" +:+ ": 1, "
        +:+ quoted "total_pages" +:+ ": 1, " +:+ quoted "total_items"
        +:+ ": 2, " +:+ quoted "has_next" +:+ ": false, "
        +:+ quoted "has_previous" +:+ ": false}}")
       (JObj (<["results" := JList [JInt 1; JInt 2]]>
              (<["pagination" :=
                   JObj (<["current_page" := JInt 1]>
                         (<["total_pages" := JInt 1]>
                          (<["total_items" := JInt 2]>
                           (<["has_next" := JBool false]>
                            (<["has_previous" := JBool false]> ∅)))))]> ∅))))
    0
  = Ok (JList [JInt 1; JInt 2],
        {| PaginationDTO.current_page := Some 1%Z;
           PaginationDTO.total_pages := Some 1%Z;
           PaginationDTO.total_items := Some 2%Z;
           PaginationDTO.has_next := false;
           PaginationDTO.has_previous := false |}).
Proof. reflexivity. Qed.

Lemma paginated_spec_witness :
  let dto := {| PaginationDTO.current_page := Some 1%Z;
                PaginationDTO.total_pages := None;
                PaginationDTO.total_items := None;
                PaginationDTO.has_next := false;
                PaginationDTO.has_previous := false |} in
  let full := checker_of 200 (page_content "[7]" "1")
                (page_body [JInt 7] (JInt 1)) in
  let empty := checker_of 200 (page_content "[]" "1")
                 (page_body [] (JInt 1)) in
  let bare := checker_of 200 "{}" (JObj ∅) in
  ResponseChecker.paginated PaginationDTO.validate full 0
  = Ok (JList [JInt 7], dto)
  ∧ (∃ msg, ResponseChecker.paginated PaginationDTO.validate empty 0
            = Raise (AssertionError msg))
  ∧ (∃ e, ResponseChecker.paginated PaginationDTO.validate bare 0 = Raise e).
Proof.
  intros dto full empty bare. split; [|split].
  - apply (paginated_spec PaginationDTO.validate full 0)
      with (pm := {["current_page" := JInt 1]}); reflexivity.
  - apply (paginated_spec PaginationDTO.validate empty 0). reflexivity.
  - apply (paginated_spec PaginationDTO.validate bare 0). reflexivity.
Defined.

(** C4 as stated does not hold: a non-empty [results] list and a
    [pagination] mapping are not enough for [paginated] to succeed.  On the
    body [{"results": [7], "pagination": {"current_page": "first"}}] the
    schema rejects the mapping, whose [current_page] is not an integer, and
    the call raises whatever the parameter. *)
Lemma paginated_rejected_mapping_counterexample :
  let rc := checker_of 200 (page_content "[7]" (quoted "first"))
              (page_body [JInt 7] (JStr "first")) in
  body_lookup rc "results" = Some (JList [JInt 7])
  ∧ body_lookup rc "pagination"
    = Some (JObj {["current_page" := JStr "first"]})
  ∧ ResponseChecker.paginated PaginationDTO.validate rc 0
    = Raise (ValidationError "current_page")
  ∧ ¬ (∃ r1 r2,
         ResponseChecker.paginated PaginationDTO.validate rc 0 = Ok r1
         ∧ ResponseChecker.paginated PaginationDTO.validate rc 5 = Ok r2
         ∧ r1 = r2).
Proof.
  intros rc. split; [reflexivity|]. split; [reflexivity|].
  split; [reflexivity|].
  intros (r1 & r2 & H1 & _). vm_compute in H1. discriminate H1.
Qed.

Lemma paginated_ignores_min_number_of_records_witness :
  let dto := {| PaginationDTO.current_page := Some 1%Z;
                PaginationDTO.total_pages := None;
                PaginationDTO.total_items := None;
                PaginationDTO.has_next := false;
                PaginationDTO.has_previous := false |} in
  let rc := checker_of 200 (page_content "[7]" "1")
              (page_body [JInt 7] (JInt 1)) in
  ResponseChecker.paginated PaginationDTO.validate rc 0
  = Ok (JList [JInt 7], dto)
  ∧ ResponseChecker.paginated PaginationDTO.validate rc 100
    = Ok (JList [JInt 7], dto).
Proof.
  intros dto rc.
  destruct (paginated_ignores_min_number_of_records PaginationDTO.validate
              rc 0 100 (JInt 7) [] {["current_page" := JInt 1]} dto
              eq_refl eq_refl eq_refl)
    as (H0 & H100 & _).
  split; assumption.
Defined.

(** ** The user factories *)

Lemma alter_last {A} (f : A → A) (h : list A) (c : A) :
  alter f (length h) (h ++ [c]) = h ++ [f c].
Proof. by rewrite <- (Nat.add_0_r (length h)), alter_app_r. Qed.

Lemma insert_last {A} (h : list A) (c x : A) :
  <[length h := x]> (h ++ [c]) = h ++ [x].
Proof. by rewrite <- (Nat.add_0_r (length h)), insert_app_r. Qed.

(** *** Cookies *)

Lemma any_char_app (p : Ascii.ascii → bool) (a b : string) :
  http_cookies.any_char p (a +:+ b)
  = http_cookies.any_char p a || http_cookies.any_char p b.
Proof.
  induction a as [|c a IH]; [done|].
  change (p c || http_cookies.any_char p (a +:+ b)
          = p c || http_cookies.any_char p a || http_cookies.any_char p b).
  rewrite IH. by destruct (p c).
Qed.

Lemma legal_char_not_control (c : Ascii.ascii) :
  http_cookies.char_in c http_cookies._LegalChars = true →
  http_cookies.is_control c = false.
Proof.
  destruct c as [[] [] [] [] [] [] [] []]; vm_compute; congruence.
Qed.

Lemma legal_key_no_control (s : string) :
  http_cookies.all_chars
    (λ c, http_cookies.char_in c http_cookies._LegalChars) s = true →
  http_cookies.any_char http_cookies.is_control s = false.
Proof.
  induction s as [|c s IH]; [done|]. simpl.
  intros [Hc Hs]%andb_true_iff.
  by rewrite (legal_char_not_control c Hc), IH.
Qed.

Lemma translate_char_no_control (c : Ascii.ascii) :
  http_cookies.any_char http_cookies.is_control (http_cookies.translate_char c)
  = false.
Proof. destruct c as [[] [] [] [] [] [] [] []]; vm_compute; reflexivity. Qed.

Lemma translate_no_control (s : string) :
  http_cookies.any_char http_cookies.is_control (http_cookies.translate s)
  = false.
Proof.
  induction s as [|c s IH]; [done|]. simpl.
  by rewrite any_char_app, translate_char_no_control, IH.
Qed.

(** The quoted form of a value never holds a control character: only the
    value itself can make the check fail. *)
Lemma quote_no_control (s : string) :
  http_cookies.any_char http_cookies.is_control (http_cookies._quote s)
  = false.
Proof.
  unfold http_cookies._quote.
  destruct (http_cookies._is_legal_key s) eqn:E.
  - destruct s as [|c s]; [done|]. by apply legal_key_no_control.
  - rewrite !any_char_app, translate_no_control. reflexivity.
Qed.

(** An assignment to the jar, by the three checks of [Morsel.set]. *)
Lemma setitem_cases (jar : gmap string string) (key value : string) :
  http_cookies.setitem jar key value
  = if bool_decide (http_cookies.lower key ∈ http_cookies._reserved)
    then Raise (CookieError (ReservedKey key))
    else if negb (http_cookies._is_legal_key key)
    then Raise (CookieError (IllegalKey key))
    else if http_cookies.any_char http_cookies.is_control value
    then Raise (CookieError
                  (ControlCharacters key value (http_cookies._quote value)))
    else Ok (<[key := value]> jar).
Proof.
  unfold http_cookies.setitem, http_cookies.value_encode,
    http_cookies.Morsel_set.
  destruct (bool_decide _); [done|].
  destruct (http_cookies._is_legal_key key) eqn:Ek; [|done]. simpl.
  assert (http_cookies.any_char http_cookies.is_control key = false) as ->.
  { destruct key as [|c key]; [done|]. by apply legal_key_no_control. }
  rewrite quote_no_control. simpl. rewrite orb_false_r.
  by destruct (http_cookies.any_char http_cookies.is_control value).
Qed.

Lemma setitem_ok (jar jar' : gmap string string) (key value : string) :
  http_cookies.setitem jar key value = Ok jar' → jar' = <[key := value]> jar.
Proof.
  rewrite setitem_cases.
  repeat match goal with
         | |- context [if ?b then _ else _] => destruct b
         end; by intros [= <-].
Qed.

(** A jar that is built holds exactly the entries of the mapping. *)
Lemma SimpleCookie_ok (cookies jar : gmap string string) :
  http_cookies.SimpleCookie cookies = Ok jar → jar = cookies.
Proof.
  unfold http_cookies.SimpleCookie.
  rewrite <- (list_to_map_to_list cookies) at 2.
  generalize (map_to_list cookies). intros l. revert jar.
  induction l as [|[k v] l IH]; intros jar; simpl.
  - by intros [= <-].
  - destruct (foldr _ (Ok ∅) l) as [jar0|e] eqn:E; [|done].
    change (Ok jar0 ≫= ?f) with (f jar0). cbv beta.
    intros ->%setitem_ok. f_equal. by apply IH.
Qed.

(** The jar of the anonymous factory: built unless the name holds a
    control character. *)
Lemma SimpleCookie_anonymous (name : string) :
  http_cookies.SimpleCookie {["ANONYMOUS_USER_EXTERNAL_ID" := name]}
  = if cookie_value_ok name
    then Ok {["ANONYMOUS_USER_EXTERNAL_ID" := name]}
    else Raise (CookieError
                  (ControlCharacters "ANONYMOUS_USER_EXTERNAL_ID" name
                     (http_cookies._quote name))).
Proof.
  unfold http_cookies.SimpleCookie, cookie_value_ok.
  rewrite map_to_list_singleton. simpl.
  change (Ok ∅ ≫= ?f) with (f (∅ : gmap string string)). cbv beta.
  rewrite setitem_cases.
  assert (bool_decide
            (http_cookies.lower "ANONYMOUS_USER_EXTERNAL_ID"
             ∈ http_cookies._reserved) = false) as ->
    by (vm_compute; reflexivity).
  assert (http_cookies._is_legal_key "ANONYMOUS_USER_EXTERNAL_ID" = true)
    as -> by (vm_compute; reflexivity).
  simpl.
  by destruct (http_cookies.any_char http_cookies.is_control name).
Qed.

Section factory_properties.

(** Any database and any behaviour of the ORM calls. *)
Context {DB : Type}.
Variable save_user : string → string → string → DB → result unit * DB.

(** A cached name is answered from the cache and nothing changes. *)
Lemma get_user_hit (cls : factory_class) (name : string) (r : ref)
    (σ : store) :
  _users σ !! name = Some r → get_user save_user cls name σ = (Ok r, σ).
Proof.
  intros H.
  unfold get_user, users_contains, users_getitem, mbind, M_bind.
  rewrite bool_decide_eq_true_2 by eauto. simpl. by rewrite H.
Qed.

(** [AnonymousUserFactory._create]: the wrapper is allocated first; the
    cookies setter then either accepts the name or raises. *)
Lemma anonymous_create_cases (name : string) (σ : @store DB) :
  AnonymousUserFactory_create name σ
  = if cookie_value_ok name
    then (Ok (length (heap σ)),
          {| _users := _users σ;
             heap := heap σ ++ [anonymous_wrapper name];
             db := db σ |})
    else (Raise (CookieError
                   (ControlCharacters "ANONYMOUS_USER_EXTERNAL_ID" name
                      (http_cookies._quote name))),
          {| _users := _users σ;
             heap := heap σ
                     ++ [AsyncClientBoB.__init__ ∅ None None None None];
             db := db σ |}).
Proof.
  unfold AnonymousUserFactory_create, new, setattr_try, setattr, mbind,
    M_bind, mret, M_ret, with_heap. simpl.
  rewrite list_lookup_middle by done.
  unfold AsyncClientBoB.set_cookies. rewrite SimpleCookie_anonymous.
  destruct (cookie_value_ok name); simpl; [|reflexivity].
  rewrite insert_last, alter_last. reflexivity.
Qed.

(** The anonymous factory, on a name it has not seen and can use as a
    cookie value: a new wrapper, cached under the name. *)
Lemma get_user_miss_anonymous (name : string) (σ : store) :
  _users σ !! name = None → cookie_value_ok name = true →
  get_user save_user AnonymousUserFactory name σ
  = (Ok (length (heap σ)),
     {| _users := <[name := length (heap σ)]> (_users σ);
        heap := heap σ ++ [anonymous_wrapper name];
        db := db σ |}).
Proof.
  intros H Hok.
  unfold get_user, users_contains, users_getitem, mbind, M_bind.
  rewrite bool_decide_eq_false_2 by (rewrite H; by intros [? ?]).
  simpl. rewrite anonymous_create_cases, Hok.
  unfold users_setitem, with_users. simpl.
  rewrite lookup_insert_eq. reflexivity.
Qed.

(** The anonymous factory, on a name it has not seen that holds a control
    character: the cookies setter raises, and nothing is cached. *)
Lemma get_user_miss_anonymous_refused (name : string) (σ : store) :
  _users σ !! name = None → cookie_value_ok name = false →
  get_user save_user AnonymousUserFactory name σ
  = (Raise (CookieError
              (ControlCharacters "ANONYMOUS_USER_EXTERNAL_ID" name
                 (http_cookies._quote name))),
     {| _users := _users σ;
        heap := heap σ ++ [AsyncClientBoB.__init__ ∅ None None None None];
        db := db σ |}).
Proof.
  intros H Hok.
  unfold get_user, users_contains, mbind, M_bind.
  rewrite bool_decide_eq_false_2 by (rewrite H; by intros [? ?]).
  simpl. by rewrite anonymous_create_cases, Hok.
Qed.

(** The authorized factory, on a name it has not seen: the ORM calls run on
    the database, then, unless they raised already, [assert False] raises;
    nothing is created and nothing is cached. *)
Lemma get_user_miss_authorized (name : string) (σ : store) :
  _users σ !! name = None →
  get_user save_user AuthorizedUserFactory name σ
  = (let '(r, d) := save_user "test" (generate_email name) "Password123#@!"
                      (db σ) in
     (match r with
      | Ok _ => Raise (AssertionError [])
      | Raise e => Raise e
      end,
      {| _users := _users σ; heap := heap σ; db := d |})).
Proof.
  intros H.
  unfold get_user, users_contains, mbind, M_bind.
  rewrite bool_decide_eq_false_2 by (rewrite H; by intros [? ?]).
  simpl. unfold AuthorizedUserFactory_create, orm_save_user, mbind, M_bind.
  destruct (save_user _ _ _ _) as [[[]|e] d]; reflexivity.
Qed.

Lemma get_user_miss_authorized_raises (name : string) (σ : store) :
  _users σ !! name = None →
  ∃ e σ1, get_user save_user AuthorizedUserFactory name σ = (Raise e, σ1)
          ∧ _users σ1 = _users σ ∧ heap σ1 = heap σ
          ∧ ((save_user "test" (generate_email name) "Password123#@!"
                (db σ)).1 = Ok tt → e = AssertionError []).
Proof.
  intros H. rewrite (get_user_miss_authorized name σ H).
  destruct (save_user _ _ _ _) as [[[]|e] d]; simpl.
  - eexists _, _. by repeat split.
  - eexists _, _. by repeat split.
Qed.

(** A call on a name that is not cached, whatever the class: either the
    new wrapper is appended and cached, or the call raises, the cache is as
    it was and the wrappers that existed are still there. *)
Lemma get_user_miss_cases (cls : factory_class) (name : string) (σ : store) :
  _users σ !! name = None →
  let out := get_user save_user cls name σ in
  (out.1 = Ok (length (heap σ))
   ∧ _users out.2 = <[name := length (heap σ)]> (_users σ)
   ∧ heap out.2 = heap σ ++ [anonymous_wrapper name]
   ∧ cls = AnonymousUserFactory ∧ cookie_value_ok name = true)
  ∨ (∃ e tail, out.1 = Raise e ∧ _users out.2 = _users σ
               ∧ heap out.2 = heap σ ++ tail).
Proof.
  intros H. destruct cls.
  - destruct (cookie_value_ok name) eqn:Hok.
    + left. rewrite (get_user_miss_anonymous name σ H Hok). by repeat split.
    + right. rewrite (get_user_miss_anonymous_refused name σ H Hok).
      eexists _, _. by repeat split.
  - right. destruct (get_user_miss_authorized_raises name σ H)
      as (e & σ1 & Hget & Hu & Hh & _).
    simpl. rewrite Hget. exists e, []. simpl. rewrite app_nil_r. by repeat split.
Qed.

(** What a returning call returns is in the cache afterwards. *)
Lemma get_user_returns_cached (cls : factory_class) (name : string)
    (σ σ1 : store) (r : ref) :
  get_user save_user cls name σ = (Ok r, σ1) → _users σ1 !! name = Some r.
Proof.
  destruct (_users σ !! name) as [r0|] eqn:E.
  - rewrite (get_user_hit cls name r0 σ E). by intros [= <- <-].
  - intros Hget.
    destruct (get_user_miss_cases cls name σ E)
      as [(Hr & Hu & _)|(e & tail & Hr & _)]; rewrite Hget in *; simpl in *.
    + injection Hr as ->. rewrite Hu. apply lookup_insert_eq.
    + discriminate Hr.
Qed.

(** No call removes or redirects an entry of the cache. *)
Lemma get_user_keeps_entries (cls : factory_class) (n name : string)
    (r : ref) (σ : store) :
  _users σ !! name = Some r →
  _users (get_user save_user cls n σ).2 !! name = Some r.
Proof.
  intros H. destruct (_users σ !! n) as [r0|] eqn:E.
  - by rewrite (get_user_hit cls n r0 σ E).
  - assert (n ≠ name) as Hne by congruence.
    destruct (get_user_miss_cases cls n σ E)
      as [(_ & Hu & _)|(e & tail & _ & Hu & _)]; simpl in Hu; rewrite Hu.
    + by rewrite lookup_insert_ne.
    + done.
Qed.

Lemma get_users_keeps_entries (cls : factory_class) (later : list string)
    (name : string) (r : ref) (σ : store) :
  _users σ !! name = Some r →
  _users (get_users save_user cls later σ) !! name = Some r.
Proof.
  revert σ. induction later as [|n later IH]; intros σ H; [done|].
  simpl. apply IH. by apply get_user_keeps_entries.
Qed.

(** No call changes a wrapper that already exists. *)
Lemma get_user_keeps_objects (cls : factory_class) (n : string)
    (r : ref) (c : AsyncClientBoB.t) (σ : store) :
  heap σ !! r = Some c → heap (get_user save_user cls n σ).2 !! r = Some c.
Proof.
  intros H. destruct (_users σ !! n) as [r0|] eqn:E.
  - by rewrite (get_user_hit cls n r0 σ E).
  - destruct (get_user_miss_cases cls n σ E)
      as [(_ & _ & Hh & _)|(e & tail & _ & _ & Hh)]; simpl in Hh; rewrite Hh;
      by apply lookup_app_l_Some.
Qed.

Lemma get_users_keeps_objects (cls : factory_class) (later : list string)
    (r : ref) (c : AsyncClientBoB.t) (σ : store) :
  heap σ !! r = Some c → heap (get_users save_user cls later σ) !! r = Some c.
Proof.
  revert σ. induction later as [|n later IH]; intros σ H; [done|].
  simpl. apply IH. by apply get_user_keeps_objects.
Qed.

(** The anonymous factory returns for every name without a control
    character. *)
Lemma get_user_anonymous_returns (name : string) (σ : store) :
  cookie_value_ok name = true →
  ∃ r σ1, get_user save_user AnonymousUserFactory name σ = (Ok r, σ1).
Proof.
  intros Hok. destruct (_users σ !! name) as [r0|] eqn:E.
  - rewrite (get_user_hit _ name r0 σ E). eauto.
  - rewrite (get_user_miss_anonymous name σ E Hok). eauto.
Qed.

(** C1, as amended: on either factory, once [get_user(N)] has returned a
    wrapper, the entry for [N] stays in the cache through any later
    [get_user] calls (with any names, returning or raising), every later
    [get_user(N)] returns the identical object without changing anything,
    and the object itself is as it was.  The anonymous factory returns for
    every name without a control character; for a name with one that is not
    in its cache the cookies setter raises a [CookieError] and nothing is
    cached.  The authorized factory raises on every name not in its cache
    (an assertion failure, if the ORM calls did not raise before) and leaves
    the cache as it was. *)
Theorem get_user_memoizes (cls : factory_class) (name : string) (σ : store) :
  (∀ r σ1, get_user save_user cls name σ = (Ok r, σ1) →
     get_user save_user cls name σ1 = (Ok r, σ1)
     ∧ ∀ later : list string,
         let σ2 := get_users save_user cls later σ1 in
         _users σ2 !! name = Some r
         ∧ get_user save_user cls name σ2 = (Ok r, σ2)
         ∧ ∀ c, heap σ1 !! r = Some c → heap σ2 !! r = Some c)
  ∧ (cls = AnonymousUserFactory → cookie_value_ok name = true →
       ∃ r σ1, get_user save_user cls name σ = (Ok r, σ1))
  ∧ (cls = AnonymousUserFactory → cookie_value_ok name = false →
     _users σ !! name = None →
       ∃ why σ1, get_user save_user cls name σ = (Raise (CookieError why), σ1)
                 ∧ _users σ1 = _users σ)
  ∧ (cls = AuthorizedUserFactory → _users σ !! name = None →
       ∃ e σ1, get_user save_user cls name σ = (Raise e, σ1)
               ∧ _users σ1 = _users σ
               ∧ ((save_user "test" (generate_email name) "Password123#@!"
                     (db σ)).1 = Ok tt → e = AssertionError [])).
Proof.
  split; [|split; [|split]].
  - intros r σ1 H. apply get_user_returns_cached in H.
    split; [by apply get_user_hit|].
    intros later σ2.
    assert (_users σ2 !! name = Some r) as H2
      by by apply get_users_keeps_entries.
    split; [done|]. split; [by apply get_user_hit|].
    intros c Hc. by apply get_users_keeps_objects.
  - intros ->. apply get_user_anonymous_returns.
  - intros -> Hok H.
    rewrite (get_user_miss_anonymous_refused name σ H Hok). eauto.
  - intros -> H.
    destruct (get_user_miss_authorized_raises name σ H)
      as (e & σ1 & Hget & Hu & _ & He).
    by exists e, σ1.
Qed.

(** C9, as amended: on a name that is not cached and holds no control
    character, the anonymous factory's [get_user] creates a new wrapper
    whose headers are empty, whose cookies are exactly
    [ANONYMOUS_USER_EXTERNAL_ID = name], and whose [uid] is the name. *)
Theorem anonymous_get_user_creates (name : string) (σ : store) :
  _users σ !! name = None → cookie_value_ok name = true →
  ∃ (r : ref) (σ' : store) (client : AsyncClientBoB.t),
    get_user save_user AnonymousUserFactory name σ = (Ok r, σ')
    ∧ heap σ !! r = None
    ∧ heap σ' !! r = Some client
    ∧ AsyncClientBoB.headers client = ∅
    ∧ AsyncClientBoB.cookies client
      = {["ANONYMOUS_USER_EXTERNAL_ID" := name]}
    ∧ AsyncClientBoB.uid client = Some name.
Proof.
  intros H Hok. eexists _, _, _.
  split; [by apply get_user_miss_anonymous|].
  split; [by apply lookup_ge_None_2|].
  split.
  - simpl. apply list_lookup_middle. reflexivity.
  - by repeat split.
Qed.

End factory_properties.

(** C1 as stated does not hold for the authorized factory: on a new factory
    [get_user("one")] raises, so no two calls return a wrapper. *)
Lemma authorized_get_user_counterexample :
  (get_user save_user_row AuthorizedUserFactory "one" (new_factory ∅)).1
  = Raise (AssertionError [])
  ∧ ¬ (∃ r σ1 σ2,
         get_user save_user_row AuthorizedUserFactory "one" (new_factory ∅)
         = (Ok r, σ1)
         ∧ get_user save_user_row AuthorizedUserFactory "one" σ1
           = (Ok r, σ2)).
Proof.
  split; [reflexivity|].
  intros (r & σ1 & σ2 & H & _).
  rewrite (get_user_miss_authorized save_user_row "one" (new_factory ∅)
             eq_refl) in H.
  discriminate H.
Qed.

Lemma get_user_memoizes_witness :
  ∃ r σ1,
    get_user save_user_row AnonymousUserFactory "one" (new_factory ∅)
    = (Ok r, σ1)
    ∧ get_user save_user_row AnonymousUserFactory "one" σ1 = (Ok r, σ1)
    ∧ let σ2 := get_users save_user_row AnonymousUserFactory
                  ["store_test"; "one"] σ1 in
      get_user save_user_row AnonymousUserFactory "one" σ2 = (Ok r, σ2).
Proof.
  destruct (get_user_memoizes save_user_row AnonymousUserFactory "one"
              (new_factory ∅))
    as (Hmemo & Hreturns & _ & _).
  destruct (Hreturns eq_refl eq_refl) as (r & σ1 & Hget).
  exists r, σ1. split; [exact Hget|].
  destruct (Hmemo r σ1 Hget) as [Hagain Hlater].
  split; [exact Hagain|].
  exact (proj1 (proj2 (Hlater ["store_test"; "one"]))).
Defined.

(** C9 as stated does not hold for every name: on the name made of [a], a
    line feed and [b] the cookies setter raises, no wrapper is returned and
    nothing is cached. *)
Lemma anonymous_get_user_control_character_counterexample :
  _users (new_factory (∅ : gmap string user_row)) !! two_line_name = None
  ∧ (∃ why,
       (get_user save_user_row AnonymousUserFactory two_line_name
          (new_factory ∅)).1 = Raise (CookieError why))
  ∧ _users (get_user save_user_row AnonymousUserFactory two_line_name
              (new_factory ∅)).2 = ∅
  ∧ ¬ (∃ r σ',
         get_user save_user_row AnonymousUserFactory two_line_name
           (new_factory ∅) = (Ok r, σ')).
Proof.
  pose proof (get_user_miss_anonymous_refused save_user_row two_line_name
                (new_factory ∅) eq_refl eq_refl) as H.
  split; [reflexivity|]. rewrite H. split; [by eexists|].
  split; [reflexivity|]. by intros (r & σ' & [=]).
Qed.

Lemma anonymous_get_user_creates_witness :
  ∃ (r : ref) (σ' : store) (client : AsyncClientBoB.t),
    get_user save_user_row AnonymousUserFactory "one" (new_factory ∅)
    = (Ok r, σ')
    ∧ heap σ' !! r = Some client
    ∧ AsyncClientBoB.headers client = ∅
    ∧ AsyncClientBoB.cookies client
      = {["ANONYMOUS_USER_EXTERNAL_ID" := "one"]}
    ∧ AsyncClientBoB.uid client = Some "one".
Proof.
  destruct (anonymous_get_user_creates save_user_row "one" (new_factory ∅)
              eq_refl eq_refl)
    as (r & σ' & client & Hget & _ & Hrest).
  exists r, σ', client. split; [exact Hget | exact Hrest].
Defined.

(** * Further properties *)

(** ** ApiException *)

Lemma in_range_false (lo hi code : Z) :
  status.in_range lo hi code = false ↔ (code < lo ∨ hi < code)%Z.
Proof.
  destruct (status.in_range lo hi code) eqn:E.
  - apply in_range_spec in E. split; [done|lia].
  - split; [|done]. intros _.
    destruct (decide (lo ≤ code ≤ hi)%Z) as [H|H]; [|lia].
    apply in_range_spec in H. congruence.
Qed.

(** X1: the constructor hands the logger one warning when the resulting
    status code is a client error, one error when it is a server error and
    nothing otherwise, never two records; the text is the level word, the
    class name and the [message] argument ([None] when omitted), with no
    space after the level word.  A construction without a status code logs
    a warning, the default being [400]. *)
Theorem ApiException_logs_by_status_class
    (message api_client_message : option string) (status_code : option Z) :
  let '(e, logs) :=
    ApiException.__init__ message api_client_message status_code in
  let s := ApiException.status_code e in
  let text := "ApiException raised: " +:+ default "None" message in
  ((400 ≤ s ≤ 499)%Z → logs = [(WARNING, "Warning" +:+ text)])
  ∧ ((500 ≤ s ≤ 599)%Z → logs = [(ERROR, "Error" +:+ text)])
  ∧ ((s < 400 ∨ 599 < s)%Z → logs = [])
  ∧ (status_code = None → logs = [(WARNING, "Warning" +:+ text)]).
Proof.
  unfold ApiException.__init__, ApiException.status_code. simpl.
  set (s := ApiException.or_default status_code ApiException.cls_status_code).
  unfold status.is_client_error, status.is_server_error.
  split; [|split; [|split]].
  - intros H. rewrite (proj2 (in_range_spec 400 499 s) H).
    rewrite (proj2 (in_range_false 500 599 s)) by lia. reflexivity.
  - intros H. rewrite (proj2 (in_range_spec 500 599 s) H).
    rewrite (proj2 (in_range_false 400 499 s)) by lia. reflexivity.
  - intros H. rewrite (proj2 (in_range_false 400 499 s)) by lia.
    rewrite (proj2 (in_range_false 500 599 s)) by lia. reflexivity.
  - intros ->. reflexivity.
Qed.

Lemma ApiException_logs_by_status_class_witness :
  (ApiException.__init__ (Some "boom") None (Some 503%Z)).2
  = [(ERROR, "ErrorApiException raised: boom")]
  ∧ (ApiException.__init__ None None (Some 302%Z)).2 = []
  ∧ (ApiException.__init__ None None None).2
    = [(WARNING, "WarningApiException raised: None")].
Proof.
  pose proof (ApiException_logs_by_status_class
                (Some "boom") None (Some 503%Z)) as H1.
  pose proof (ApiException_logs_by_status_class None None (Some 302%Z)) as H2.
  pose proof (ApiException_logs_by_status_class None None None) as H3.
  simpl in H1, H2, H3.
  split; [apply H1; lia|]. split; [apply H2; lia|]. apply H3. reflexivity.
Defined.

(** X2: the text the exception itself carries is the [message] argument
    when that is a non-empty string and the class's default client message
    otherwise; the [api_client_message] argument has no part in it, so the
    exception's own text and its client message can differ. *)
Theorem ApiException_own_text_ignores_client_message
    (message api_client_message : option string) (status_code : option Z) :
  let e := (ApiException.__init__ message api_client_message status_code).1 in
  (∀ m, message = Some m → m ≠ "" → ApiException.args e = m)
  ∧ (message = None ∨ message = Some "" →
     ApiException.args e = "Error occurred. Try again.")
  ∧ ApiException.args e
    = ApiException.args (ApiException.__init__ message None None).1.
Proof.
  simpl. split; [|split].
  - intros m -> Hm. simpl. destruct m; done.
  - intros [->| ->]; reflexivity.
  - reflexivity.
Qed.

Lemma ApiException_own_text_ignores_client_message_witness :
  ApiException.args
    (ApiException.__init__ (Some "boom") (Some "Sorry") None).1 = "boom"
  ∧ ApiException.args (ApiException.__init__ None (Some "Sorry") None).1
    = "Error occurred. Try again."
  ∧ ApiException.api_client_message
      (ApiException.__init__ None (Some "Sorry") None).1 = "Sorry".
Proof.
  destruct (ApiException_own_text_ignores_client_message
              (Some "boom") (Some "Sorry") None) as (H1 & _ & _).
  destruct (ApiException_own_text_ignores_client_message
              None (Some "Sorry") None) as (_ & H2 & _).
  split; [by apply H1|]. split; [apply H2; by left|reflexivity].
Defined.

Lemma ApiException_truthy_arguments_kept_witness :
  let e := (ApiException.__init__ None (Some "Gone") (Some 410%Z)).1 in
  ApiException.status_code e = 410%Z
  ∧ ApiException.api_client_message e = "Gone".
Proof.
  apply (ApiException_truthy_arguments_kept None "Gone" 410%Z); discriminate.
Defined.

(** X4: whatever the arguments, an instance never carries the status code
    [0], an empty client message or an empty text of its own. *)
Theorem ApiException_never_falsy
    (message api_client_message : option string) (status_code : option Z) :
  let e := (ApiException.__init__ message api_client_message status_code).1 in
  ApiException.status_code e ≠ 0%Z
  ∧ ApiException.api_client_message e ≠ ""
  ∧ ApiException.args e ≠ "".
Proof.
  destruct (ApiException_attributes_truthy
              message api_client_message status_code) as [Hm Hs].
  simpl in *. split; [exact Hs|]. split.
  - intros Heq. unfold ApiException.api_client_message in Heq. simpl in Heq.
    rewrite Heq in Hm. discriminate.
  - destruct message as [[|a m]|]; done.
Qed.

(** ** ResponseChecker: cookies and status classes *)

(** X5: [has_cookies(K)] returns a value exactly when subscripting the
    response's cookies by [K] gives a morsel, and the value is the morsel's;
    when it gives a plain string (the cookies of an [httpx] response) the
    [value] attribute is missing and the call raises an [AttributeError];
    when the response has no cookie [K] it raises an assertion failure whose
    message names [K]; it never raises the [KeyError] of the subscript. *)
Theorem has_cookies_spec (rc : ResponseChecker.t) (K : string) :
  let jar := Response.cookies (ResponseChecker._response rc) in
  (∀ v, ResponseChecker.has_cookies rc K = Ok v ↔ jar !! K = Some (Morsel v))
  ∧ (∀ s, jar !! K = Some (PlainString s) →
          ∃ msg, ResponseChecker.has_cookies rc K
                 = Raise (AttributeError msg))
  ∧ (jar !! K = None →
     ∃ msg text,
       ResponseChecker.has_cookies rc K = Raise (AssertionError msg)
       ∧ render msg = Some text ∧ occurs_in K text)
  ∧ (∀ k, ResponseChecker.has_cookies rc K ≠ Raise (KeyError k)).
Proof.
  simpl. unfold ResponseChecker.has_cookies.
  destruct (Response.cookies (ResponseChecker._response rc) !! K)
    as [[w|s]|] eqn:E.
  - rewrite bool_decide_eq_true_2 by eauto.
    split; [|split; [|split]]; [|done|done|done].
    intros v. split; by intros [= ->].
  - rewrite bool_decide_eq_true_2 by eauto.
    split; [|split; [|split]]; [done| |done|done].
    intros s' _. by eexists.
  - rewrite bool_decide_eq_false_2 by (by intros [? ?]).
    split; [|split; [|split]]; [done|done| |done].
    intros _. eexists _, _. split; [reflexivity|].
    split; [reflexivity|]. apply occurs_in_middle.
Qed.

Lemma has_cookies_spec_witness :
  let checker jar :=
    {| ResponseChecker._response :=
         {| Response.content := ""; Response.status_code := 200;
            Response.cookies := jar; Response.json := Ok (JObj ∅) |};
       ResponseChecker._status := 200;
       ResponseChecker._json := JObj ∅ |} in
  ResponseChecker.has_cookies (checker {["session" := Morsel "abc"]})
    "session" = Ok "abc"
  ∧ (∃ msg, ResponseChecker.has_cookies
              (checker {["session" := PlainString "abc"]}) "session"
            = Raise (AttributeError msg))
  ∧ ∃ msg text,
      ResponseChecker.has_cookies (checker {["session" := Morsel "abc"]})
        "csrf" = Raise (AssertionError msg)
      ∧ render msg = Some text ∧ occurs_in "csrf" text.
Proof.
  intros checker. split; [|split].
  - apply (has_cookies_spec (checker {["session" := Morsel "abc"]})
             "session"). reflexivity.
  - apply (has_cookies_spec (checker {["session" := PlainString "abc"]})
             "session") with (s := "abc"). reflexivity.
  - apply (has_cookies_spec (checker {["session" := Morsel "abc"]}) "csrf").
    reflexivity.
Defined.

Lemma passed_assert (c : bool) (msg : fstring) : passed (assert_ c msg) = c.
Proof. by destruct c. Qed.

(** X6: the five class checks exclude one another: on a status code from
    [100] to [599] exactly one of them passes, on any other status code
    none does. *)
Theorem class_checks_exclusive (rc : ResponseChecker.t) :
  let s := ResponseChecker._status rc in
  length (filter (λ r, passed r = true) (class_checks rc))
  = if bool_decide (100 ≤ s ≤ 599)%Z then 1 else 0.
Proof.
  simpl. unfold class_checks, ResponseChecker.is_informational,
    ResponseChecker.is_success, ResponseChecker.is_redirect,
    ResponseChecker.is_client_error, ResponseChecker.is_server_error,
    status.is_informational, status.is_success, status.is_redirect,
    status.is_client_error, status.is_server_error.
  set (s := ResponseChecker._status rc).
  rewrite !filter_cons, filter_nil, !passed_assert.
  destruct (status.in_range 100 199 s) eqn:E1;
    [apply in_range_spec in E1|apply in_range_false in E1];
  (destruct (status.in_range 200 299 s) eqn:E2;
    [apply in_range_spec in E2|apply in_range_false in E2]);
  (destruct (status.in_range 300 399 s) eqn:E3;
    [apply in_range_spec in E3|apply in_range_false in E3]);
  (destruct (status.in_range 400 499 s) eqn:E4;
    [apply in_range_spec in E4|apply in_range_false in E4]);
  (destruct (status.in_range 500 599 s) eqn:E5;
    [apply in_range_spec in E5|apply in_range_false in E5]);
  try lia;
  repeat (case_decide; try done);
  case_bool_decide; simpl; lia.
Qed.

(** ** ResponseChecker: matching an expected exception, continued *)

(** X7: when [check_exception] passes on a checker built from a response,
    [validate_status] passes with the exception's status code and
    [key_value("message")] returns the exception's client message. *)
Theorem check_exception_implies_status_and_message
    (r : Response.t) (rc : ResponseChecker.t) (E : ApiException.t) :
  (ResponseChecker.__init__ r).1 = Ok rc →
  ResponseChecker.check_exception rc E = Ok tt →
  ResponseChecker.validate_status rc (ApiException.status_code E) = Ok tt
  ∧ ResponseChecker.key_value rc "message"
    = Ok (JStr (ApiException.api_client_message E)).
Proof.
  intros Hrc Hce. destruct (init_status r rc Hrc) as [Hs Hr].
  unfold ResponseChecker.check_exception in Hce.
  destruct (Z.eqb_spec (Response.status_code (ResponseChecker._response rc))
              (ApiException._status_code E)) as [Heq|Hne];
    [|discriminate Hce].
  change (assert_ true ?m ≫= ?k) with (k tt) in Hce. cbv beta in Hce.
  destruct (ResponseChecker.key_value rc "message") as [v|e] eqn:Ekv;
    [|discriminate Hce].
  change (Ok v ≫= ?k) with (k v) in Hce. cbv beta in Hce.
  apply assert_ok, str_eq_spec in Hce. subst v.
  split; [|reflexivity].
  unfold ResponseChecker.validate_status, ApiException.status_code.
  apply assert_ok. rewrite Hs, <- Heq, Hr. apply Z.eqb_refl.
Qed.

Lemma check_exception_implies_status_and_message_witness :
  let body := JObj {[ "message" := JStr "Not found" ]} in
  let r := response_of 404
             ("{" +:+ quoted "message" +:+ ": " +:+ quoted "Not found"
              +:+ "}") body in
  let E := (ApiException.__init__ None (Some "Not found") (Some 404%Z)).1 in
  ∃ rc, (ResponseChecker.__init__ r).1 = Ok rc
        ∧ ResponseChecker.validate_status rc 404 = Ok tt
        ∧ ResponseChecker.key_value rc "message" = Ok (JStr "Not found").
Proof.
  intros body r E. eexists. split; [reflexivity|].
  apply (check_exception_implies_status_and_message r _ E); reflexivity.
Defined.

(** X8: [check_exception] looks at the status code first.  On a status
    code other than the expected one it raises the assertion failure about
    the status, whatever the body is (a body that is not a mapping
    included); only with the expected status code is the body read, and
    then a body that is not a mapping fails the lookup with an
    [AttributeError]. *)
Theorem check_exception_status_first
    (rc : ResponseChecker.t) (E : ApiException.t) :
  let actual := Response.status_code (ResponseChecker._response rc) in
  let expected := ApiException._status_code E in
  (actual ≠ expected →
     ResponseChecker.check_exception rc E
     = Raise (AssertionError
                [Text "Status is: "; Interp (JInt (ResponseChecker._status rc));
                 Text " "; Text "but should be: "; Interp (JInt expected)]))
  ∧ (actual = expected →
     (∀ m, ResponseChecker._json rc ≠ JObj m) →
     ∃ msg, ResponseChecker.check_exception rc E
            = Raise (AttributeError msg)).
Proof.
  simpl. unfold ResponseChecker.check_exception. split.
  - intros Hne.
    destruct (Z.eqb_spec (Response.status_code (ResponseChecker._response rc))
                (ApiException._status_code E)); [done|reflexivity].
  - intros Heq Hnm. rewrite Heq, Z.eqb_refl.
    destruct (key_value_not_mapping rc "message" Hnm) as [msg Hmsg].
    exists msg. change (assert_ true ?m ≫= ?k) with (k tt). cbv beta.
    by rewrite Hmsg.
Qed.

Lemma check_exception_status_first_witness :
  let rc := checker_of 500 "[1]" (JList [JInt 1]) in
  (∃ msg, ResponseChecker.check_exception rc
            (ApiException.__init__ None None None).1
          = Raise (AssertionError msg))
  ∧ ∃ msg, ResponseChecker.check_exception rc
             (ApiException.__init__ None None (Some 500%Z)).1
           = Raise (AttributeError msg).
Proof.
  intros rc. split.
  - eexists.
    apply (check_exception_status_first rc
             (ApiException.__init__ None None None).1).
    discriminate.
  - apply (check_exception_status_first rc
             (ApiException.__init__ None None (Some 500%Z)).1).
    + reflexivity.
    + discriminate.
Defined.

(** ** ResponseChecker: pagination, continued *)

Lemma len_not_none (v : pyval) (n : Z) : len v = Ok n → is_not_none v = true.
Proof. by destruct v. Qed.

Lemma len_nonnegative (v : pyval) (n : Z) : len v = Ok n → (0 ≤ n)%Z.
Proof. destruct v; simpl; intros [= <-]; lia. Qed.

(** The schema instance raises nothing but validation errors. *)
Lemma validate_raises_validation_error (kw : gmap string pyval) (e : exn) :
  PaginationDTO.validate kw = Raise e → ∃ field, e = ValidationError field.
Proof.
  unfold PaginationDTO.validate, PaginationDTO.optional_int,
    PaginationDTO.int_default_none, PaginationDTO.bool_default_false.
  unfold_result.
  repeat match goal with
         | |- context [match ?m !! ?k with _ => _ end] =>
             destruct (m !! k) as [[]|]
         end;
    intros [= <-]; eauto.
Qed.

Section paginated_further.

Variable PaginationDTO_new : gmap string pyval → result PaginationDTO.t.

#[local] Abbreviation paginated' :=
  (ResponseChecker.paginated PaginationDTO_new).

(** [paginated] on a mapping body whose [results] has a positive length. *)
Lemma paginated_sized (rc : ResponseChecker.t) (body : gmap string pyval)
    (m n : Z) (results : pyval) :
  ResponseChecker._json rc = JObj body →
  body !! "results" = Some results →
  len results = Ok n → (0 < n)%Z →
  paginated' rc m
  = (let pagination_data := default JNull (body !! "pagination") in
     assert_ (is_not_none pagination_data) [Text "No pagination data"];;
     pagination ← kwargs pagination_data ≫= PaginationDTO_new;
     Ok (results, pagination)).
Proof.
  intros Hb Hr Hl Hn.
  rewrite (paginated_on_mapping PaginationDTO_new rc body m Hb), Hr.
  simpl. rewrite Hl. change (Ok n ≫= ?k) with (k n). cbv beta.
  rewrite (proj2 (Z.ltb_lt 0 n) Hn), (len_not_none results n Hl).
  reflexivity.
Qed.

(** X9: a [results] entry that is missing or [null] is never reported by
    the assertion written for it: the call has already raised the
    [TypeError] of [len(None)].  Whenever that assertion is reached it
    holds, so [paginated] raises the failure [No results data] only if the
    schema constructor itself does. *)
Theorem paginated_no_results_is_type_error
    (rc : ResponseChecker.t) (body : gmap string pyval) (m : Z) :
  ResponseChecker._json rc = JObj body →
  (body !! "results" = None ∨ body !! "results" = Some JNull →
   paginated' rc m
   = Raise (TypeError "object of type 'NoneType' has no len()"))
  ∧ ((∀ kw, PaginationDTO_new kw
            ≠ Raise (AssertionError [Text "No results data"])) →
     paginated' rc m ≠ Raise (AssertionError [Text "No results data"])).
Proof.
  intros Hb. rewrite (paginated_on_mapping PaginationDTO_new rc body m Hb).
  split.
  - intros [-> | ->]; reflexivity.
  - intros Hnew. simpl.
    destruct (len (default JNull (body !! "results"))) as [n|e] eqn:El.
    2: { destruct (default JNull (body !! "results")); simpl in El;
           try discriminate El; injection El as <-; discriminate. }
    change (Ok n ≫= ?k) with (k n). cbv beta.
    destruct (0 <? n)%Z; [|discriminate].
    change (assert_ true ?msg ≫= ?k) with (k tt). cbv beta.
    rewrite (len_not_none _ n El).
    change (assert_ true ?msg ≫= ?k) with (k tt). cbv beta.
    destruct (is_not_none (default JNull (body !! "pagination")));
      [|discriminate].
    change (assert_ true ?msg ≫= ?k) with (k tt). cbv beta.
    destruct (default JNull (body !! "pagination")) as [| | | | | |pm];
      try discriminate.
    simpl. specialize (Hnew pm).
    destruct (PaginationDTO_new pm) as [dto|e]; [discriminate|].
    unfold_result. congruence.
Qed.

(** X10: [paginated] does not require [results] to be a list: any value
    with a positive length (a non-empty string or mapping as well) passes,
    and is returned as it is beside the schema instance. *)
Theorem paginated_accepts_any_sized_results
    (rc : ResponseChecker.t) (body pm : gmap string pyval) (m n : Z)
    (results : pyval) (dto : PaginationDTO.t) :
  ResponseChecker._json rc = JObj body →
  body !! "results" = Some results →
  len results = Ok n → (0 < n)%Z →
  body !! "pagination" = Some (JObj pm) →
  PaginationDTO_new pm = Ok dto →
  paginated' rc m = Ok (results, dto).
Proof.
  intros Hb Hr Hl Hn Hp Hv.
  rewrite (paginated_sized rc body m n results Hb Hr Hl Hn), Hp.
  simpl. unfold_result. by rewrite Hv.
Qed.

(** X11: with a [results] of positive length, a [pagination] entry that is
    missing or [null] raises the assertion failure [No pagination data];
    one that is present but not a mapping raises a [TypeError] when it is
    unpacked; one that the schema constructor rejects raises what the
    constructor raises. *)
Theorem paginated_pagination_failures
    (rc : ResponseChecker.t) (body : gmap string pyval) (m n : Z)
    (results : pyval) :
  ResponseChecker._json rc = JObj body →
  body !! "results" = Some results →
  len results = Ok n → (0 < n)%Z →
  (body !! "pagination" = None ∨ body !! "pagination" = Some JNull →
   paginated' rc m = Raise (AssertionError [Text "No pagination data"]))
  ∧ (∀ v, body !! "pagination" = Some v → v ≠ JNull →
          (∀ pm, v ≠ JObj pm) →
          ∃ msg, paginated' rc m = Raise (TypeError msg))
  ∧ (∀ pm e, body !! "pagination" = Some (JObj pm) →
             PaginationDTO_new pm = Raise e →
             paginated' rc m = Raise e).
Proof.
  intros Hb Hr Hl Hn.
  rewrite (paginated_sized rc body m n results Hb Hr Hl Hn).
  split; [|split].
  - intros [-> | ->]; reflexivity.
  - intros v -> Hnull Hnm. destruct v; simpl; eauto; try done.
    by destruct (Hnm m0).
  - intros pm e -> He. simpl. unfold_result. by rewrite He.
Qed.

(** X12: [min_number_of_records] reaches nothing but the text of the
    failure for an empty [results]: two calls that differ in it either
    have the same outcome, or both raise that failure, each with its own
    parameter in the message. *)
Theorem paginated_parameter_only_in_message
    (rc : ResponseChecker.t) (m1 m2 : Z) :
  paginated' rc m1 = paginated' rc m2
  ∨ (paginated' rc m1
     = Raise (AssertionError
                [Text "Results number is "; Interp (JInt 0); Text ", ";
                 Text "but should be at least "; Interp (JInt m1)])
     ∧ paginated' rc m2
       = Raise (AssertionError
                  [Text "Results number is "; Interp (JInt 0); Text ", ";
                   Text "but should be at least "; Interp (JInt m2)])).
Proof.
  destruct (body_mapping_or_not rc) as [[body Hb]|Hn].
  - rewrite !(paginated_on_mapping PaginationDTO_new rc body _ Hb). simpl.
    destruct (len (default JNull (body !! "results"))) as [n|e] eqn:El;
      [|by left].
    change (Ok n ≫= ?k) with (k n). cbv beta.
    destruct (Z.ltb_spec 0 n) as [Hpos|Hle]; [by left|].
    right. pose proof (len_nonnegative _ _ El).
    assert (n = 0%Z) as -> by lia. done.
  - left. unfold ResponseChecker.paginated.
    destruct (dict_get_not_mapping rc "results" Hn) as [msg ->]. done.
Qed.

End paginated_further.

Lemma paginated_no_results_is_type_error_witness :
  let rc := checker_of 200 "{}" (JObj ∅) in
  ResponseChecker.paginated PaginationDTO.validate rc 0
  = Raise (TypeError "object of type 'NoneType' has no len()")
  ∧ ResponseChecker.paginated PaginationDTO.validate rc 0
    ≠ Raise (AssertionError [Text "No results data"]).
Proof.
  intros rc.
  destruct (paginated_no_results_is_type_error PaginationDTO.validate
              rc ∅ 0 eq_refl) as [Htype Hnever].
  split; [apply Htype; by left|].
  apply Hnever. intros kw Hkw.
  destruct (validate_raises_validation_error kw _ Hkw) as [f Hf].
  discriminate Hf.
Defined.

Lemma paginated_accepts_any_sized_results_witness :
  let body : gmap string pyval :=
    <["results" := JStr "none yet"]> (<["pagination" := JObj ∅]> ∅) in
  let rc := checker_of 200
              ("{" +:+ quoted "results" +:+ ": " +:+ quoted "none yet"
               +:+ ", " +:+ quoted "pagination" +:+ ": {}}")
              (JObj body) in
  ResponseChecker.paginated PaginationDTO.validate rc 0
  = Ok (JStr "none yet",
        {| PaginationDTO.current_page := None;
           PaginationDTO.total_pages := None;
           PaginationDTO.total_items := None;
           PaginationDTO.has_next := false;
           PaginationDTO.has_previous := false |}).
Proof.
  intros body rc.
  apply (paginated_accepts_any_sized_results PaginationDTO.validate
           rc body ∅ 0 8 (JStr "none yet")); try reflexivity.
Defined.

Lemma paginated_pagination_failures_witness :
  let rc := checker_of 200 ("{" +:+ quoted "results" +:+ ": [7]}")
              (JObj {[ "results" := JList [JInt 7] ]}) in
  ResponseChecker.paginated PaginationDTO.validate rc 0
  = Raise (AssertionError [Text "No pagination data"]).
Proof.
  intros rc.
  apply (paginated_pagination_failures PaginationDTO.validate rc
           {[ "results" := JList [JInt 7] ]} 0 1 (JList [JInt 7]));
    try reflexivity.
  by left.
Defined.

(** ** ResponseChecker: a response without content *)

Lemma init_empty_content (r : Response.t) :
  Response.content r = "" →
  ∃ rc, (ResponseChecker.__init__ r).1 = Ok rc
        ∧ ResponseChecker._json rc = JObj ∅.
Proof.
  intros Hc. unfold ResponseChecker.__init__,
    ResponseChecker._process_response. rewrite Hc. simpl. eauto.
Qed.

(** X13: a response with empty content always gives a checker, whatever
    its [json()] would do; on that checker every [key_value] raises an
    assertion failure, [paginated] raises the [TypeError] of [len(None)],
    [check_exception] never passes, and the status checks work as on any
    other checker. *)
Theorem bodiless_response_fails_body_checks
    (PaginationDTO_new : gmap string pyval → result PaginationDTO.t)
    (r : Response.t) :
  Response.content r = "" →
  ∃ rc, (ResponseChecker.__init__ r).1 = Ok rc
        ∧ (∀ k, ∃ msg, ResponseChecker.key_value rc k
                       = Raise (AssertionError msg))
        ∧ (∀ m, ResponseChecker.paginated PaginationDTO_new rc m
                = Raise (TypeError "object of type 'NoneType' has no len()"))
        ∧ (∀ E, ∃ e, ResponseChecker.check_exception rc E = Raise e)
        ∧ ResponseChecker.validate_status rc (Response.status_code r)
          = Ok tt.
Proof.
  intros Hc.
  destruct (init_empty_content r Hc) as [rc [Hrc Hj]].
  exists rc. split; [exact Hrc|].
  destruct (init_status r rc Hrc) as [Hs Hr].
  split; [|split; [|split]].
  - intros k. unfold ResponseChecker.key_value. rewrite Hj. simpl. eauto.
  - intros m. unfold ResponseChecker.paginated. by rewrite Hj.
  - intros E. unfold ResponseChecker.check_exception.
    destruct (assert_ _ _) as [[]|e]; [|by eexists].
    change (Ok tt ≫= ?k) with (k tt). cbv beta.
    unfold ResponseChecker.key_value. rewrite Hj. simpl. eauto.
  - unfold ResponseChecker.validate_status. rewrite Hs.
    apply assert_ok, Z.eqb_refl.
Qed.

Lemma bodiless_response_fails_body_checks_witness :
  let r := {| Response.content := ""; Response.status_code := 204;
              Response.cookies := ∅;
              Response.json := Raise (JSONDecodeError "Expecting value") |} in
  ∃ rc, (ResponseChecker.__init__ r).1 = Ok rc
        ∧ (∃ msg, ResponseChecker.key_value rc "id"
                  = Raise (AssertionError msg))
        ∧ ResponseChecker.validate_status rc 204 = Ok tt.
Proof.
  intros r.
  destruct (bodiless_response_fails_body_checks PaginationDTO.validate r
              eq_refl) as (rc & Hrc & Hkv & _ & _ & Hvs).
  exists rc. split; [exact Hrc|]. split; [apply Hkv | exact Hvs].
Defined.

(** ** SharedData, continued *)

(** X14: a write touches one key only: [data.get] of any other key gives
    what it gave before (the same value or the same failure), and a second
    write to a key replaces the first. *)
Theorem SharedData_writes_are_local {V}
    (data : gmap string V) (k k' : string) (v w : V) :
  (k ≠ k' →
   SharedData.get (SharedData.setitem data k v) k' = SharedData.get data k')
  ∧ SharedData.get (SharedData.setitem (SharedData.setitem data k v) k w) k
    = Ok w.
Proof.
  split.
  - intros Hne.
    unfold SharedData.get, SharedData.contains, SharedData.getitem,
      SharedData.setitem.
    by rewrite lookup_insert_ne.
  - apply SharedData_get_present. unfold SharedData.setitem.
    apply lookup_insert_eq.
Qed.

Lemma SharedData_writes_are_local_witness :
  let data := SharedData.setitem (∅ : gmap string Z) "order_id" 7%Z in
  SharedData.get (SharedData.setitem data "token" 1%Z) "order_id" = Ok 7%Z
  ∧ SharedData.get (SharedData.setitem data "order_id" 8%Z) "order_id"
    = Ok 8%Z.
Proof.
  intros data.
  destruct (SharedData_writes_are_local data "token" "order_id" 1%Z 1%Z)
    as [Hother _].
  destruct (SharedData_writes_are_local ∅ "order_id" "order_id" 7%Z 8%Z)
    as [_ Htwice].
  split; [|exact Htwice].
  rewrite Hother; [reflexivity|discriminate].
Defined.

(** ** generate_email *)

Lemma string_length_app (a b : string) :
  String.length (a +:+ b) = String.length a + String.length b.
Proof.
  induction a as [|x a IH]; [done|].
  change (S (String.length (a +:+ b)) = S (String.length a + String.length b)).
  by rewrite IH.
Qed.

Lemma string_app_inv_tail (a b s : string) : a +:+ s = b +:+ s → a = b.
Proof.
  revert b. induction a as [|x a IH]; intros [|y b] H.
  - done.
  - apply (f_equal String.length) in H. rewrite !string_length_app in H.
    simpl in H. lia.
  - apply (f_equal String.length) in H. rewrite !string_length_app in H.
    simpl in H. lia.
  - change (String x (a +:+ s) = String y (b +:+ s)) in H.
    injection H as -> H. f_equal. by apply IH.
Qed.

(** X15: [generate_email] gives different names different addresses, and
    every address is the name followed by the test domain. *)
Theorem generate_email_injective (name1 name2 : string) :
  (generate_email name1 = generate_email name2 → name1 = name2)
  ∧ ∃ domain, generate_email name1 = name1 +:+ "@test." +:+ domain.
Proof.
  split.
  - unfold generate_email. apply string_app_inv_tail.
  - by exists "businessorientedprogramming.com".
Qed.

Lemma generate_email_injective_witness :
  generate_email "one" ≠ generate_email "two".
Proof.
  intros H. apply (generate_email_injective "one" "two") in H.
  discriminate H.
Defined.

(** ** The user factories, continued *)

Lemma dom_add_present (n : string) (X : gset string) :
  n ∈ X → X = {[n]} ∪ X.
Proof.
  intros H. symmetry. apply subseteq_union_1_L.
  by apply singleton_subseteq_l.
Qed.

Lemma names_set_cons (n : string) (names : list string) (X : gset string) :
  list_to_set names ∪ ({[n]} ∪ X) = list_to_set (n :: names) ∪ X.
Proof.
  simpl. rewrite (assoc_L (∪)). f_equal. apply (comm_L (∪)).
Qed.

Lemma names_set_nil (X : gset string) :
  X = list_to_set (@nil string) ∪ X.
Proof. simpl. by rewrite union_empty_l_L. Qed.

Lemma names_set_only (names : list string) :
  list_to_set names ∪ (∅ : gset string) = list_to_set names.
Proof. apply union_empty_r_L. Qed.

Section factory_invariants.

Context {DB : Type}.
Variable save_user : string → string → string → DB → result unit * DB.

Lemma get_users_snoc (cls : factory_class) (names : list string)
    (n : string) (σ : store) :
  get_users save_user cls (names ++ [n]) σ
  = (get_user save_user cls n (get_users save_user cls names σ)).2.
Proof.
  revert σ. induction names as [|n' names IH]; intros σ; [done|].
  simpl. apply IH.
Qed.

Lemma anonymous_get_user_keeps_invariant (n : string) (σ : store) :
  cache_holds_own_wrappers σ →
  cache_holds_own_wrappers (get_user save_user AnonymousUserFactory n σ).2.
Proof.
  intros Hown. destruct (_users σ !! n) as [r0|] eqn:E.
  - by rewrite (get_user_hit save_user _ n r0 σ E).
  - destruct (cookie_value_ok n) eqn:Hok.
    + rewrite (get_user_miss_anonymous save_user n σ E Hok).
      intros n' r'. simpl. destruct (decide (n = n')) as [<-|Hne].
      * rewrite lookup_insert_eq. intros [= <-].
        by apply list_lookup_middle.
      * rewrite lookup_insert_ne by done. intros H.
        apply lookup_app_l_Some. by apply Hown.
    + rewrite (get_user_miss_anonymous_refused save_user n σ E Hok).
      intros n' r' H. simpl in *. apply lookup_app_l_Some. by apply Hown.
Qed.

Lemma anonymous_get_user_dom (n : string) (σ : store) :
  dom (_users (get_user save_user AnonymousUserFactory n σ).2)
  = list_to_set (filter (λ n, cookie_value_ok n = true) [n])
    ∪ dom (_users σ).
Proof.
  rewrite filter_cons, filter_nil.
  destruct (_users σ !! n) as [r0|] eqn:E.
  - rewrite (get_user_hit save_user _ n r0 σ E). simpl.
    case_decide; simpl.
    + rewrite union_empty_r_L. apply dom_add_present, elem_of_dom. eauto.
    + by rewrite union_empty_l_L.
  - destruct (cookie_value_ok n) eqn:Hok.
    + rewrite (get_user_miss_anonymous save_user n σ E Hok). simpl.
      rewrite union_empty_r_L. apply dom_insert_L.
    + rewrite (get_user_miss_anonymous_refused save_user n σ E Hok). simpl.
      by rewrite union_empty_l_L.
Qed.

Lemma anonymous_get_user_db (n : string) (σ : store) :
  db (get_user save_user AnonymousUserFactory n σ).2 = db σ.
Proof.
  destruct (_users σ !! n) as [r0|] eqn:E.
  - by rewrite (get_user_hit save_user _ n r0 σ E).
  - destruct (cookie_value_ok n) eqn:Hok.
    + by rewrite (get_user_miss_anonymous save_user n σ E Hok).
    + by rewrite (get_user_miss_anonymous_refused save_user n σ E Hok).
Qed.

Lemma anonymous_get_user_keeps_count (n : string) (σ : store) :
  cookie_value_ok n = true →
  length (heap σ) = size (_users σ) →
  let σ' := (get_user save_user AnonymousUserFactory n σ).2 in
  length (heap σ') = size (_users σ').
Proof.
  intros Hok Hsize. destruct (_users σ !! n) as [r0|] eqn:E.
  - by rewrite (get_user_hit save_user _ n r0 σ E).
  - rewrite (get_user_miss_anonymous save_user n σ E Hok). simpl.
    rewrite length_app, map_size_insert_None by done. simpl. lia.
Qed.

Lemma anonymous_get_users_invariant (names : list string) (σ : store) :
  cache_holds_own_wrappers σ →
  let σ' := get_users save_user AnonymousUserFactory names σ in
  cache_holds_own_wrappers σ'
  ∧ dom (_users σ')
    = list_to_set (filter (λ n, cookie_value_ok n = true) names)
      ∪ dom (_users σ)
  ∧ db σ' = db σ.
Proof.
  revert σ. induction names as [|n names IH]; intros σ Hinv.
  - simpl. split; [done|]. split; [|done]. by rewrite union_empty_l_L.
  - simpl.
    destruct (IH _ (anonymous_get_user_keeps_invariant n σ Hinv))
      as (Hinv' & Hdom & Hdb).
    split; [exact Hinv'|]. split.
    + rewrite Hdom, anonymous_get_user_dom.
      rewrite (filter_cons _ n names), filter_cons, filter_nil.
      case_decide; simpl.
      * rewrite union_empty_r_L. apply names_set_cons.
      * by rewrite union_empty_l_L.
    + by rewrite Hdb, anonymous_get_user_db.
Qed.

Lemma anonymous_get_users_count (names : list string) (σ : store) :
  Forall (λ n, cookie_value_ok n = true) names →
  length (heap σ) = size (_users σ) →
  let σ' := get_users save_user AnonymousUserFactory names σ in
  length (heap σ') = size (_users σ').
Proof.
  intros Hall. revert σ.
  induction Hall as [|n names Hok Hall IH]; intros σ Hsize; [done|].
  simpl. apply IH. by apply anonymous_get_user_keeps_count.
Qed.

Lemma new_factory_invariant (d : DB) : cache_holds_own_wrappers (new_factory d).
Proof. intros n r H. simpl in H. by rewrite lookup_empty in H. Qed.

(** X16: an anonymous factory that has answered [get_user] for a list of
    names, starting new, caches exactly those of the names that hold no
    control character (the others were refused by the cookies setter); each
    cached name refers to a wrapper with empty headers, the cookie
    [ANONYMOUS_USER_EXTERNAL_ID] set to that name and no other cookie, and
    that name as [uid]; when no name was refused there are as many wrappers
    as cached names; the database is untouched. *)
Theorem anonymous_factory_cache_invariant (d : DB) (names : list string) :
  let σ := get_users save_user AnonymousUserFactory names (new_factory d) in
  dom (_users σ)
  = list_to_set (filter (λ n, cookie_value_ok n = true) names)
  ∧ (∀ n r, _users σ !! n = Some r →
       ∃ client, heap σ !! r = Some client
                 ∧ AsyncClientBoB.headers client = ∅
                 ∧ AsyncClientBoB.cookies client
                   = {["ANONYMOUS_USER_EXTERNAL_ID" := n]}
                 ∧ AsyncClientBoB.uid client = Some n)
  ∧ (Forall (λ n, cookie_value_ok n = true) names →
     length (heap σ) = size (_users σ))
  ∧ db σ = d.
Proof.
  destruct (anonymous_get_users_invariant names (new_factory d)
              (new_factory_invariant d)) as (Hown & Hdom & Hdb).
  simpl in *. split; [|split; [|split; [|exact Hdb]]].
  - rewrite Hdom. apply union_empty_r_L.
  - intros n r Hn. exists (anonymous_wrapper n).
    split; [by apply Hown|]. by repeat split.
  - intros Hall.
    by apply (anonymous_get_users_count names (new_factory d) Hall).
Qed.

(** X17: on an anonymous factory that started new, two different names
    never share a wrapper: [get_user] of one and then of the other return
    different objects. *)
Theorem anonymous_factory_distinct_wrappers
    (d : DB) (names : list string) (n1 n2 : string) (r1 r2 : ref)
    (σ1 σ2 : store) :
  let σ := get_users save_user AnonymousUserFactory names (new_factory d) in
  n1 ≠ n2 →
  get_user save_user AnonymousUserFactory n1 σ = (Ok r1, σ1) →
  get_user save_user AnonymousUserFactory n2 σ1 = (Ok r2, σ2) →
  r1 ≠ r2.
Proof.
  intros σ Hne H1 H2 Heq. subst r2.
  assert (σ2 = get_users save_user AnonymousUserFactory
                 ((names ++ [n1]) ++ [n2]) (new_factory d)) as Hσ2.
  { rewrite !get_users_snoc. fold σ. rewrite H1. simpl. by rewrite H2. }
  destruct (anonymous_get_users_invariant ((names ++ [n1]) ++ [n2])
              (new_factory d) (new_factory_invariant d))
    as (Hown & _ & _).
  simpl in Hown. rewrite <- Hσ2 in Hown.
  pose proof (get_user_returns_cached save_user _ _ _ _ _ H1) as Hc1.
  pose proof (get_user_returns_cached save_user _ _ _ _ _ H2) as Hc2.
  pose proof (get_user_keeps_entries save_user AnonymousUserFactory
                n2 n1 r1 σ1 Hc1) as Hk.
  rewrite H2 in Hk. simpl in Hk.
  pose proof (Hown _ _ Hk) as Hw1. pose proof (Hown _ _ Hc2) as Hw2.
  rewrite Hw1 in Hw2.
  assert (AsyncClientBoB.uid (anonymous_wrapper n1)
          = AsyncClientBoB.uid (anonymous_wrapper n2)) as Hu by congruence.
  simpl in Hu. congruence.
Qed.

Lemma authorized_get_users_nothing_cached (names : list string) (σ : store) :
  _users σ = ∅ →
  let σ' := get_users save_user AuthorizedUserFactory names σ in
  _users σ' = ∅ ∧ heap σ' = heap σ
  ∧ db σ' = saved_users save_user names (db σ).
Proof.
  revert σ. induction names as [|n names IH]; intros σ Hempty; [done|].
  simpl.
  assert (_users σ !! n = None) as Hn by (by rewrite Hempty, lookup_empty).
  pose proof (get_user_miss_authorized save_user n σ Hn) as Hget.
  destruct (save_user "test" (generate_email n) "Password123#@!" (db σ))
    as [res d'] eqn:Es.
  simpl in Hget.
  destruct (IH (get_user save_user AuthorizedUserFactory n σ).2)
    as (Hu & Hh & Hd).
  { by rewrite Hget. }
  split; [exact Hu|]. split.
  - rewrite Hh, Hget. reflexivity.
  - rewrite Hd, Hget. reflexivity.
Qed.

(** X18: an authorized factory that started new never caches and never
    creates a wrapper: after any list of [get_user] calls its cache and
    the heap are empty and every further [get_user] raises; yet each call
    has run the ORM calls on the database (user name [test], the generated
    email, the fixed password), in the order of the calls and once per
    call, repeated names included. *)
Theorem authorized_factory_caches_nothing
    (d : DB) (names : list string) (n : string) :
  let σ := get_users save_user AuthorizedUserFactory names (new_factory d) in
  _users σ = ∅ ∧ heap σ = []
  ∧ db σ = saved_users save_user names d
  ∧ ∃ e σ', get_user save_user AuthorizedUserFactory n σ = (Raise e, σ').
Proof.
  destruct (authorized_get_users_nothing_cached names (new_factory d) eq_refl)
    as (Hu & Hh & Hd).
  simpl in *. split; [exact Hu|]. split; [exact Hh|]. split; [exact Hd|].
  destruct (get_user_miss_authorized_raises save_user n
              (get_users save_user AuthorizedUserFactory names (new_factory d)))
    as (e & σ' & Hget & _).
  { by rewrite Hu, lookup_empty. }
  eauto.
Qed.

End factory_invariants.

Lemma anonymous_factory_cache_invariant_witness :
  let names := ["one"; two_line_name; "store_test"; "one"] in
  let σ := get_users save_user_row AnonymousUserFactory names
             (new_factory ∅) in
  dom (_users σ) = list_to_set ["one"; "store_test"; "one"]
  ∧ (∃ client, heap σ !! 2 = Some client
               ∧ AsyncClientBoB.uid client = Some "store_test")
  ∧ let σ' := get_users save_user_row AnonymousUserFactory
                ["one"; "store_test"; "one"] (new_factory ∅) in
    length (heap σ') = size (_users σ').
Proof.
  intros names σ.
  destruct (anonymous_factory_cache_invariant save_user_row ∅ names)
    as (Hdom & Hown & _ & _).
  destruct (anonymous_factory_cache_invariant save_user_row ∅
              ["one"; "store_test"; "one"]) as (_ & _ & Hcount & _).
  fold σ in Hdom, Hown.
  split; [exact Hdom|]. split.
  - assert (_users σ !! "store_test" = Some 2) as Hcached
      by (vm_compute; reflexivity).
    destruct (Hown "store_test" 2 Hcached) as (client & Hc & _ & _ & Hu).
    exists client. split; assumption.
  - apply Hcount. repeat constructor.
Defined.

Lemma anonymous_factory_distinct_wrappers_witness :
  let first :=
    get_user save_user_row AnonymousUserFactory "one" (new_factory ∅) in
  let second :=
    get_user save_user_row AnonymousUserFactory "store_test" first.2 in
  ∃ r1 r2, first.1 = Ok r1 ∧ second.1 = Ok r2 ∧ r1 ≠ r2.
Proof.
  intros first second. exists 0, 1.
  split; [vm_compute; reflexivity|]. split; [vm_compute; reflexivity|].
  apply (anonymous_factory_distinct_wrappers save_user_row ∅ []
           "one" "store_test" 0 1 first.2 second.2).
  - discriminate.
  - vm_compute. reflexivity.
  - vm_compute. reflexivity.
Defined.

(** ** The client wrapper's verbs *)

Section verb_properties.

Variable client :
  AsyncClientBoB.request → gmap string string
  → result Response.t * gmap string string.

(** Every verb is one call on the test client followed by the construction
    of a checker. *)
Lemma run_call_unfold (c : verb_call) (self : AsyncClientBoB.t) :
  run_call client c self
  = (let '(answer, self') :=
       AsyncClientBoB.client_call client (request_of c self) self in
     (response ← answer; (ResponseChecker.__init__ response).1, self')).
Proof. by destruct c. Qed.

(** X19: each of [get], [post], [patch] and [delete] makes exactly one call
    on the test client, with its own method, the given path, for [post]
    and [patch] the given body and content type (['application/json'] when
    [post] is given none), the wrapper's current headers and the wrapper's
    cookie jar.  The wrapper keeps its headers and identity and takes the
    jar the exchange leaves.  An exception of the client is the verb's; a
    response is wrapped in a checker, so the verb returns a checker
    holding that response and its status code, or raises what decoding a
    non-empty body raises. *)
Theorem verbs_exchange_once (c : verb_call) (self : AsyncClientBoB.t) :
  let req := request_of c self in
  let answer := (client req (AsyncClientBoB.cookies self)).1 in
  let jar := (client req (AsyncClientBoB.cookies self)).2 in
  let result := (run_call client c self).1 in
  let self' := (run_call client c self).2 in
  AsyncClientBoB.request_headers req = AsyncClientBoB.headers self
  ∧ AsyncClientBoB.headers self' = AsyncClientBoB.headers self
  ∧ AsyncClientBoB.cookies self' = jar
  ∧ (AsyncClientBoB.uid self', AsyncClientBoB.email self',
     AsyncClientBoB.password self', AsyncClientBoB.organization_id self',
     AsyncClientBoB.organization_name self')
    = (AsyncClientBoB.uid self, AsyncClientBoB.email self,
       AsyncClientBoB.password self, AsyncClientBoB.organization_id self,
       AsyncClientBoB.organization_name self)
  ∧ (∀ e, answer = Raise e → result = Raise e)
  ∧ (∀ response, answer = Ok response →
       result = (ResponseChecker.__init__ response).1)
  ∧ (∀ rc, result = Ok rc →
       ∃ response, answer = Ok response
                   ∧ ResponseChecker._response rc = response
                   ∧ ResponseChecker._status rc
                     = Response.status_code response).
Proof.
  simpl. rewrite run_call_unfold. unfold AsyncClientBoB.client_call,
    AsyncClientBoB.cookies.
  destruct (client (request_of c self) (AsyncClientBoB._client_cookies self))
    as [answer jar]. simpl.
  split; [by destruct c|]. do 3 (split; [reflexivity|]).
  split; [by intros e ->|]. split; [by intros response ->|].
  intros rc Hrc. destruct answer as [response|e]; [|discriminate Hrc].
  exists response. split; [reflexivity|].
  change (Ok response ≫= ?k) with (k response) in Hrc. cbv beta in Hrc.
  destruct (init_status response rc Hrc) as [Hs Hr]. by split.
Qed.

(** X20: the setters act on the next exchange: after [cookies = ck], if the
    setter accepts the mapping, and [headers = h], a verb sends the headers
    [h] and hands the client the jar made of [ck] alone, whatever headers
    and cookies the wrapper had before.  When [SimpleCookie] refuses the
    mapping (a reserved or illegal cookie name, a control character) the
    setter raises its [CookieError] and there is no new state of the
    wrapper. *)
Theorem setters_determine_next_exchange
    (c : verb_call) (self : AsyncClientBoB.t) (h ck : gmap string string) :
  (∀ self1, AsyncClientBoB.set_cookies ck self = Ok self1 →
     let self' := AsyncClientBoB.set_headers h self1 in
     AsyncClientBoB.request_headers (request_of c self') = h
     ∧ (run_call client c self').1
       = (response ← (client (request_of c self') ck).1;
          (ResponseChecker.__init__ response).1)
     ∧ AsyncClientBoB.cookies (run_call client c self').2
       = (client (request_of c self') ck).2)
  ∧ (∀ e, http_cookies.SimpleCookie ck = Raise e →
          AsyncClientBoB.set_cookies ck self = Raise e).
Proof.
  unfold AsyncClientBoB.set_cookies. split.
  - intros self1 Hset.
    destruct (http_cookies.SimpleCookie ck) as [jar|e] eqn:Ejar;
      [|discriminate Hset].
    apply SimpleCookie_ok in Ejar. subst jar.
    injection Hset as <-. simpl.
    rewrite run_call_unfold. unfold AsyncClientBoB.client_call.
    split; [by destruct c|]. simpl.
    by destruct (client _ ck).
  - by intros e ->.
Qed.

End verb_properties.

Lemma verbs_exchange_once_witness :
  let client : AsyncClientBoB.request → gmap string string
               → result Response.t * gmap string string :=
    λ req jar,
      (Ok (response_of 201 "{}" (JObj ∅)), <["session" := "abc"]> jar) in
  let self := anonymous_wrapper "one" in
  let out := run_call client (Post "/items" (JObj ∅) None) self in
  (∃ rc, out.1 = Ok rc ∧ ResponseChecker.validate_status rc 201 = Ok tt)
  ∧ AsyncClientBoB.cookies out.2
    = <["session" := "abc"]> {["ANONYMOUS_USER_EXTERNAL_ID" := "one"]}
  ∧ AsyncClientBoB.content_type
      (request_of (Post "/items" (JObj ∅) None) self)
    = Some "application/json".
Proof.
  intros client self out.
  destruct (verbs_exchange_once client (Post "/items" (JObj ∅) None) self)
    as (_ & _ & Hjar & _ & _ & Hok & _).
  split; [|split; [exact Hjar|reflexivity]].
  exists (checker_of 201 "{}" (JObj ∅)). split; [|reflexivity].
  unfold out. rewrite (Hok (response_of 201 "{}" (JObj ∅)) eq_refl).
  reflexivity.
Defined.

Lemma setters_determine_next_exchange_witness :
  let client : AsyncClientBoB.request → gmap string string
               → result Response.t * gmap string string :=
    λ req jar, (Ok (response_of 200 "{}" (JObj ∅)), jar) in
  let ck : gmap string string := {["session" := "abc"]} in
  let h : gmap string string := {["Accept" := "application/json"]} in
  ∃ self1,
    AsyncClientBoB.set_cookies ck (anonymous_wrapper "one") = Ok self1
    ∧ AsyncClientBoB.cookies
        (run_call client (Get "/items") (AsyncClientBoB.set_headers h self1)).2
      = ck.
Proof.
  intros client ck h. eexists. split; [vm_compute; reflexivity|].
  match goal with
  | |- AsyncClientBoB.cookies (run_call _ _ (_ _ ?s)).2 = _ =>
      destruct (setters_determine_next_exchange client (Get "/items")
                  (anonymous_wrapper "one") h ck) as [Hnext _];
      destruct (Hnext s) as (_ & _ & Hjar)
  end.
  - vm_compute. reflexivity.
  - rewrite Hjar. reflexivity.
Defined.
